(** * Hospital pharmacy inventory management: the tabular pipelines

    A shallow embedding of the three data pipelines of the repository

    - [src/script1_global_stock.py]      ([GlobalStock], [GlobalStockRun]),
    - [src/script2_main_store_stock.py]  ([MainStore], [MainStoreRun]),
    - [src/script4_inventory_calc.py]    ([InventoryCalc]),

    followed by the properties that the specification states about them.

    Conventions of the embedding.

    - A pandas DataFrame is a [list] of rows, a row is a record (or a pair
      once a column has been added), a column is a projection.
    - A numeric cell is an exact rational ([Q]); a cell that may be missing
      is an [option], [None] being pandas' NaN / NaT.
    - [GlobalStock] and [MainStore] add numbers exactly; [GlobalStockRun]
      and [MainStoreRun] embed the same two functions with the sums that
      the run computes, which on an [int64] or [float64] column wrap
      around or are rounded, and with the header check of the table.
    - A Python [str] is a [string] whose characters are code points below
      256; item codes are compared by code point, as Python does.
    - A Python exception is a value of [exn]; a function that may raise
      returns an [outcome].
    - The progress callback [log_fn] only reports; it is not modelled. *)

From Stdlib Require Import List String Ascii Bool Arith ZArith NArith QArith Qround Qabs.
From Stdlib Require Import Lia Lqa Sorting.Sorted Sorting.Permutation.
Import ListNotations.

(** ** Python and pandas primitives *)

Module Py.

(** The text of an [assert] message or of a [ValueError]. *)
Inductive message : Type :=
| Input_file_is_empty
| Input_file_missing_columns (missing : list string)
| All_rows_were_filtered_out
| Input_sheet_is_empty
| No_RAW_DATA_sheet_found
| Missing_columns (missing : list string)
| Cannot_set_a_DataFrame_to_a_single_column
| Intransit_Store_should_be_removed
| Duplicate_item_codes_found
| Negative_quantities_found
| Null_quantities_found
| Quantity_mismatch (input_total output_total : Q)
| Net_Stock_calculation_error
| Negative_order_quantities_found.

Inductive exn : Type :=
| FileNotFoundError
| ValueError (m : message)
| AssertionError (m : message)
| ZeroDivisionError.

(** [inl e]: the call raised [e]; [inr a]: it returned [a]. *)
Definition outcome (A : Type) : Type := (exn + A)%type.

Definition ret {A} (a : A) : outcome A := inr a.
Definition raise {A} (e : exn) : outcome A := inl e.

Definition bind {A B} (m : outcome A) (k : A -> outcome B) : outcome B :=
  match m with
  | inl e => inl e
  | inr a => k a
  end.

Notation "x <- m ;; k" := (bind m (fun x => k))
  (at level 61, m at next level, right associativity).
Notation "m ;; k" := (bind m (fun _ => k))
  (at level 61, right associativity).

(** [assert cond, msg] *)
Definition assert (cond : bool) (m : message) : outcome unit :=
  if cond then ret tt else raise (AssertionError m).

Fixpoint mapM {A B} (f : A -> outcome B) (l : list A) : outcome (list B) :=
  match l with
  | [] => ret []
  | a :: l' =>
      b <- f a ;;
      bs <- mapM f l' ;;
      ret (b :: bs)
  end.

(** *** Numbers *)

Definition Qltb (x y : Q) : bool := negb (Qle_bool y x).
Definition Qgtb (x y : Q) : bool := Qltb y x.
Definition Qgeb (x y : Q) : bool := Qle_bool y x.

(** [x / y] of Python: division by zero raises. *)
Definition truediv (x y : Q) : outcome Q :=
  if Qeq_bool y 0 then raise ZeroDivisionError else ret (x / y)%Q.

(** [round(x, 0)]: to the nearest integer, a tie going to the even one. *)
Definition round0 (x : Q) : Z :=
  let f := Qfloor x in
  let d := (x - inject_Z f)%Q in
  if Qltb d (1 # 2) then f
  else if Qltb (1 # 2) d then (f + 1)%Z
  else if Z.even f then f else (f + 1)%Z.

(** [math.ceil] *)
Definition ceil (x : Q) : Z := Qceiling x.

(** [max(a, b)] of Python: the first of the largest arguments. *)
Definition max (a b : Q) : Q := if Qltb a b then b else a.

(** [abs] *)
Definition abs (x : Q) : Q := Qabs x.

(** [Series.sum()]: NaN cells are skipped, the empty sum is 0. *)
Fixpoint sum (col : list (option Q)) : Q :=
  match col with
  | [] => 0%Q
  | Some q :: col' => (q + sum col')%Q
  | None :: col' => sum col'
  end.

(** [Series.fillna(0)] on one cell *)
Definition fillna0 (v : option Q) : Q :=
  match v with Some q => q | None => 0%Q end.

Definition notna {A} (v : option A) : bool :=
  match v with Some _ => true | None => false end.

Definition isna {A} (v : option A) : bool := negb (notna v).

(** *** Strings *)

(** The characters that [str.strip()] removes, among code points < 256. *)
Definition isspace (c : ascii) : bool :=
  let n := N_of_ascii c in
  ((9 <=? n) && (n <=? 13) || (28 <=? n) && (n <=? 32)
   || (n =? 133) || (n =? 160))%N.

Fixpoint lstrip (s : string) : string :=
  match s with
  | EmptyString => EmptyString
  | String c s' => if isspace c then lstrip s' else s
  end.

Fixpoint rstrip (s : string) : string :=
  match s with
  | EmptyString => EmptyString
  | String c s' =>
      match rstrip s' with
      | EmptyString => if isspace c then EmptyString else String c EmptyString
      | t => String c t
      end
  end.

Definition strip (s : string) : string := rstrip (lstrip s).

(** [str.lower()] on code points < 256. *)
Definition lower_char (c : ascii) : ascii :=
  let n := N_of_ascii c in
  if ((65 <=? n) && (n <=? 90)
      || (192 <=? n) && (n <=? 222) && negb (n =? 215))%N
  then ascii_of_N (n + 32) else c.

Fixpoint lower (s : string) : string :=
  match s with
  | EmptyString => EmptyString
  | String c s' => String (lower_char c) (lower s')
  end.

(** [sub in s] *)
Fixpoint contains (sub s : string) : bool :=
  String.prefix sub s
  || match s with
     | EmptyString => false
     | String _ s' => contains sub s'
     end.

(** Equality of two key cells, as [merge] and [==] on a key column see it
    when both cells hold text; [merge] also pairs a missing key with a
    missing key. *)
Definition key_eqb (a b : option string) : bool :=
  match a, b with
  | Some x, Some y => String.eqb x y
  | None, None => true
  | _, _ => false
  end.

(** [cell == text]: a missing cell equals no text. *)
Definition cell_is (text : string) (cell : option string) : bool :=
  match cell with
  | Some x => String.eqb x text
  | None => false
  end.

(** *** Sorting, grouping, joining *)

(** [sort_values(col)] where [col] holds text: ascending, stable. *)
Section Sort.
Context {A : Type} (key : A -> string).

Fixpoint insert (a : A) (l : list A) : list A :=
  match l with
  | [] => [a]
  | b :: l' =>
      if String.ltb (key b) (key a) then b :: insert a l' else a :: l
  end.

Fixpoint sort_values (l : list A) : list A :=
  match l with
  | [] => []
  | a :: l' => insert a (sort_values l')
  end.
End Sort.

(** [Series.is_unique] *)
Fixpoint is_unique (l : list string) : bool :=
  match l with
  | [] => true
  | a :: l' => negb (existsb (String.eqb a) l') && is_unique l'
  end.

Fixpoint dropna {A} (l : list (option A)) : list A :=
  match l with
  | [] => []
  | Some a :: l' => a :: dropna l'
  | None :: l' => dropna l'
  end.

(** [df.groupby(key)[val].sum().reset_index()]: one row per key present
    in the table, the keys in ascending order; a row whose key is missing
    belongs to no group (the default [dropna=True] of [groupby]). *)
Section GroupBy.
Context {A : Type} (key : A -> option string) (val : A -> option Q).

Definition group (k : string) (df : list A) : list A :=
  filter (fun r => cell_is k (key r)) df.

Definition group_keys (df : list A) : list string :=
  sort_values (fun k => k) (nodup string_dec (dropna (map key df))).

Definition groupby_sum (df : list A) : list (string * option Q) :=
  map (fun k => (k, Some (sum (map val (group k df))))) (group_keys df).
End GroupBy.

(** [left.merge(right, left_on=key, right_on=<first column>, how="left")]
    restricted to the one value column of [right] that is kept: every
    left row once per matching right row, in the order of [left], and
    once with a missing value when nothing matches. *)
Definition merge_left {A} (key : A -> option string) (left : list A)
    (right : list (option string * option Q)) : list (A * option Q) :=
  flat_map
    (fun l =>
       match filter (fun r => key_eqb (key l) (fst r)) right with
       | [] => [(l, None)]
       | ms => map (fun r => (l, snd r)) ms
       end)
    left.

End Py.

(** A cell of a quantity column as it is read from the file: empty, a
    number (also a text that [pd.to_numeric] reads as that number), or a
    text that [pd.to_numeric] cannot read. *)
Inductive qty_cell : Type :=
| QtyBlank
| QtyNumber (q : Q)
| QtyText (s : string).

(** [.notna()] on a raw quantity cell *)
Definition qty_notna (c : qty_cell) : bool :=
  match c with QtyBlank => false | _ => true end.

(** [pd.to_numeric(cell, errors="coerce")] *)
Definition to_numeric (c : qty_cell) : option Q :=
  match c with
  | QtyNumber q => Some q
  | QtyBlank | QtyText _ => None
  end.

(** [Series.astype(str)] on a text cell: a missing cell reads "nan". *)
Definition astype_str (c : option string) : string :=
  match c with Some s => s | None => "nan"%string end.

(** ** Script 1: the global stock lookup *)

Module GlobalStock.
Import Py.

(** One row of [Material_Global_Stock_Report.CSV]. *)
Record RawStockRecord : Type := {
  ItemCode : option string;
  Description : option string;
  Qty : qty_cell
}.

(** A row once [Qty] has been converted by [pd.to_numeric]. *)
Record StockRecord : Type := {
  Item_Code : option string;
  Desc : option string;
  Quantity : option Q
}.

(** One row of the lookup: [Item Code], [Total Global Stock]. *)
Definition GlobalStockLookup : Type := list (string * option Q).

(** Filter 1: [Description] present and not blank. *)
Definition has_description (r : RawStockRecord) : bool :=
  notna (Description r)
  && negb (String.eqb (strip (astype_str (Description r))) "").

(** Filter 2: [Qty] present. *)
Definition has_qty (r : RawStockRecord) : bool := qty_notna (Qty r).

Definition convert_qty (r : RawStockRecord) : StockRecord :=
  {| Item_Code := ItemCode r; Desc := Description r;
     Quantity := to_numeric (Qty r) |}.

(** Filter 3: [Qty] is a number after conversion. *)
Definition numeric_qty (r : StockRecord) : bool := notna (Quantity r).

(** Step 2 of the script: the three filters. *)
Definition clean (df : list RawStockRecord) : list StockRecord :=
  let df := filter has_description df in
  let df := filter has_qty df in
  let df := map convert_qty df in
  filter numeric_qty df.

(** Step 3: group by [ItemCode], sum [Qty], sort by [Item Code]. *)
Definition aggregate (df : list StockRecord) : GlobalStockLookup :=
  let result := groupby_sum Item_Code Quantity df in
  sort_values fst result.

Definition nonneg_cell (v : option Q) : bool :=
  match v with Some q => Qgeb q 0 | None => false end.

(** Step 4: the four assertions, in the order of the script. *)
Definition validate (result : GlobalStockLookup) : outcome unit :=
  assert (negb (existsb (String.eqb "Intransit Store") (map fst result)))
    Intransit_Store_should_be_removed ;;
  assert (is_unique (map fst result)) Duplicate_item_codes_found ;;
  assert (forallb nonneg_cell (map snd result)) Negative_quantities_found ;;
  assert (forallb notna (map snd result)) Null_quantities_found.

(** [create_global_stock_lookup]: [input_file] is the table read from the
    path, [None] when no file exists there.  The table has the three
    required columns and the sums are exact; [GlobalStockRun] has the
    check of the header and the sums of the run. *)
Definition create_global_stock_lookup (input_file : option (list RawStockRecord))
  : outcome GlobalStockLookup :=
  match input_file with
  | None => raise FileNotFoundError
  | Some df =>
      if Nat.eqb (List.length df) 0 then raise (ValueError Input_file_is_empty)
      else
        let df := clean df in
        if Nat.eqb (List.length df) 0
        then raise (ValueError All_rows_were_filtered_out)
        else
          let result := aggregate df in
          validate result ;;
          ret result
  end.

End GlobalStock.

(** ** Script 2: the main store stock lookup *)

Module MainStore.
Import Py.

Definition MAIN_STORE : string := "Main Medical Store (MMS)-SEPL".

(** One row of the RAW DATA sheet: [Item\nCode], [Qty.], [Store Name]. *)
Record RawBatchRecord : Type := {
  ItemCode : option string;
  Qty : qty_cell;
  StoreName : option string
}.

(** A row once [Qty.] has been converted by [pd.to_numeric]. *)
Record BatchRecord : Type := {
  Item_Code : option string;
  Quantity : option Q;
  Store_Name : option string
}.

Definition MainStoreStockLookup : Type := list (string * option Q).

(** A workbook: its sheets, by name, in order. *)
Definition workbook : Type := list (string * list RawBatchRecord).

(** [next((s for s in xl.sheet_names if "raw" in s.lower()), None)] *)
Definition raw_sheet (xl : workbook) : option (list RawBatchRecord) :=
  option_map snd (find (fun s => contains "raw" (lower (fst s))) xl).

Definition in_main_store (r : RawBatchRecord) : bool :=
  cell_is MAIN_STORE (StoreName r).

Definition count {A} (p : A -> bool) (l : list A) : nat :=
  List.length (filter p l).

Definition convert_qty (r : RawBatchRecord) : BatchRecord :=
  {| Item_Code := ItemCode r; Quantity := to_numeric (Qty r);
     Store_Name := StoreName r |}.

(** Step 2 of the script: the quality checks and the conversion. *)
Definition clean (df : list RawBatchRecord) : list BatchRecord :=
  let main_rows := count in_main_store df in
  let df := if negb (Nat.eqb main_rows (List.length df))
            then filter in_main_store df else df in
  let missing_items := count (fun r => isna (ItemCode r)) df in
  let missing_qty := count (fun r => negb (qty_notna (Qty r))) df in
  let df := if Nat.ltb 0 missing_items || Nat.ltb 0 missing_qty
            then filter (fun r => notna (ItemCode r) && qty_notna (Qty r)) df
            else df in
  let df := map convert_qty df in
  filter (fun r => notna (Quantity r)) df.

(** Step 3: group by item code, sum, sort. *)
Definition aggregate (df : list BatchRecord) : MainStoreStockLookup :=
  let result := groupby_sum Item_Code Quantity df in
  sort_values fst result.

Definition nonneg_cell (v : option Q) : bool :=
  match v with Some q => Qgeb q 0 | None => false end.

(** Step 4: the assertions on [result]; [input_total] was taken from the
    cleaned table before grouping. *)
Definition validate (input_total : Q) (result : MainStoreStockLookup)
  : outcome unit :=
  assert (is_unique (map fst result)) Duplicate_item_codes_found ;;
  assert (forallb nonneg_cell (map snd result)) Negative_quantities_found ;;
  assert (forallb notna (map snd result)) Null_quantities_found ;;
  let output_total := sum (map snd result) in
  assert (Qltb (abs (input_total - output_total)) (1 # 100))
    (Quantity_mismatch input_total output_total).

(** Steps 3 and 4 on a cleaned table. *)
Definition aggregate_and_validate (df : list BatchRecord)
  : outcome MainStoreStockLookup :=
  let input_total := sum (map Quantity df) in
  let result := aggregate df in
  validate input_total result ;;
  ret result.

(** [create_main_store_stock_lookup]: [input_file] is the workbook at the
    path, [None] when no file exists there.  The RAW DATA sheet has the
    three required columns and the sums are exact; [MainStoreRun] has the
    check of the header and the sums of the run. *)
Definition create_main_store_stock_lookup (input_file : option workbook)
  : outcome MainStoreStockLookup :=
  match input_file with
  | None => raise FileNotFoundError
  | Some xl =>
      match raw_sheet xl with
      | None => raise (ValueError No_RAW_DATA_sheet_found)
      | Some df =>
          if Nat.eqb (List.length df) 0 then raise (ValueError Input_sheet_is_empty)
          else aggregate_and_validate (clean df)
      end
  end.

End MainStore.

(** ** Scripts 1 and 2 on the numbers of the machine

    [GlobalStock] and [MainStore] total their quantities exactly and
    start from a table that has the columns of its record.  The scripts
    run on [int64] or [float64] columns, where a sum wraps around or is
    rounded and depends on the order of its terms, and they check the
    header of the table before they read a row.  The modules below embed
    the same two functions with both points as the code has them: the
    table carries its header, and the sums and the difference of two
    totals are those that the run computes, whatever they are.  A number
    is a finite value of the column's dtype, hence a rational.  Three
    arithmetics are given as instances: [exact], [rounded] (binary64)
    and [wrapping] (int64). *)

Module Machine.

(** The arithmetic of a run:
    - [series_sum]: [Series.sum()] of a column, NaN cells skipped;
    - [group_sum]: the sum of one group in [groupby(...)[col].sum()];
    - [abs_diff a b]: [abs(a - b)]. *)
Record arithmetic : Type := {
  series_sum : list (option Q) -> Q;
  group_sum : list (option Q) -> Q;
  abs_diff : Q -> Q -> Q
}.

(** The arithmetic without rounding or overflow. *)
Definition exact : arithmetic :=
  {| series_sum := Py.sum;
     group_sum := Py.sum;
     abs_diff := fun a b => Py.abs (a - b) |}.

(** An arithmetic that rounds: every addition and subtraction gives the
    binary64 number nearest to the exact result, a tie going to the even
    significand, and a column is added up cell after cell.  [binary64]
    covers the normal range: no overflow, no subnormal number. *)
Definition binary64 (x : Q) : Q :=
  if Qeq_bool x 0 then 0%Q
  else
    let a := Py.abs x in
    let e0 := (Z.log2 (Qnum a) - Z.log2 (Zpos (Qden a)) - 52)%Z in
    let e := if Py.Qltb (a / Qpower 2 e0) (Qpower 2 52)
             then (e0 - 1)%Z else e0 in
    let m := Py.round0 (a / Qpower 2 e) in
    Qred ((if Py.Qltb x 0 then - inject_Z m else inject_Z m) * Qpower 2 e).

Definition binary64_sum (col : list (option Q)) : Q :=
  fold_left
    (fun acc v => match v with Some q => binary64 (acc + q) | None => acc end)
    col 0%Q.

Definition rounded : arithmetic :=
  {| series_sum := binary64_sum;
     group_sum := binary64_sum;
     abs_diff := fun a b => Py.abs (binary64 (a - b)) |}.

(** An arithmetic that wraps around: whole numbers of 64 bits, as on an
    [int64] column. *)
Definition int64 (x : Q) : Q :=
  inject_Z ((Qfloor x + 2 ^ 63) mod 2 ^ 64 - 2 ^ 63).

Definition int64_sum (col : list (option Q)) : Q :=
  fold_left
    (fun acc v => match v with Some q => int64 (acc + q) | None => acc end)
    col 0%Q.

Definition wrapping : arithmetic :=
  {| series_sum := int64_sum;
     group_sum := int64_sum;
     abs_diff := fun a b => int64 (Py.abs (int64 (a - b))) |}.

(** [df.groupby(key)[val].sum().reset_index()] with the group sums of the
    run: one row per key present in the table, the keys in ascending
    order; a row whose key is missing belongs to no group. *)
Definition groupby_sum (ar : arithmetic) {A : Type}
    (key : A -> option string) (val : A -> option Q) (df : list A)
  : list (string * option Q) :=
  map (fun k => (k, Some (group_sum ar (map val (Py.group key k df)))))
    (Py.group_keys key df).

(** [[c for c in required if c not in columns]] *)
Definition missing_columns (required columns : list string) : list string :=
  filter (fun c => negb (existsb (String.eqb c) columns)) required.

End Machine.

(** *** Script 1 *)

Module GlobalStockRun.
Import Py Machine.

(** The table that [pd.read_csv] returns: its header and its rows.  The
    fields of a row are read only once their columns are known to be in
    the header. *)
Record table : Type := {
  columns : list string;
  rows : list GlobalStock.RawStockRecord
}.

Definition required_cols : list string :=
  ["ItemCode"; "Description"; "Qty"]%string.

(** Step 3: group by [ItemCode], sum [Qty], sort by [Item Code]. *)
Definition aggregate (ar : arithmetic) (df : list GlobalStock.StockRecord)
  : GlobalStock.GlobalStockLookup :=
  let result :=
    groupby_sum ar GlobalStock.Item_Code GlobalStock.Quantity df in
  sort_values fst result.

(** [create_global_stock_lookup]: [input_file] is the table read from the
    path, [None] when no file exists there. *)
Definition create_global_stock_lookup (ar : arithmetic)
    (input_file : option table) : outcome GlobalStock.GlobalStockLookup :=
  match input_file with
  | None => raise FileNotFoundError
  | Some t =>
      let df := rows t in
      let missing := missing_columns required_cols (columns t) in
      match missing with
      | _ :: _ => raise (ValueError (Input_file_missing_columns missing))
      | [] =>
          if Nat.eqb (List.length df) 0
          then raise (ValueError Input_file_is_empty)
          else
            let df := GlobalStock.clean df in
            if Nat.eqb (List.length df) 0
            then raise (ValueError All_rows_were_filtered_out)
            else
              let result := aggregate ar df in
              GlobalStock.validate result ;;
              ret result
      end
  end.

End GlobalStockRun.

(** *** Script 2 *)

Module MainStoreRun.
Import Py Machine.

Definition ITEM_COL : string := ("Item" ++ String "010" "Code")%string.
Definition QTY_COL : string := "Qty."%string.

(** A sheet as [pd.read_excel] returns it: its header and its rows. *)
Record sheet : Type := {
  columns : list string;
  rows : list MainStore.RawBatchRecord
}.

(** A workbook: its sheets, by name, in order. *)
Definition workbook : Type := list (string * sheet).

(** [next((s for s in xl.sheet_names if "raw" in s.lower()), None)] *)
Definition raw_sheet (xl : workbook) : option sheet :=
  option_map snd (find (fun s => contains "raw" (lower (fst s))) xl).

Definition required : list string := [ITEM_COL; QTY_COL; "Store Name"%string].

(** Step 3: group by item code, sum, sort. *)
Definition aggregate (ar : arithmetic) (df : list MainStore.BatchRecord)
  : MainStore.MainStoreStockLookup :=
  let result := groupby_sum ar MainStore.Item_Code MainStore.Quantity df in
  sort_values fst result.

(** Step 4: the assertions on [result]; [input_total] was taken from the
    cleaned table before grouping.  The code compares the difference with
    the binary64 number written [0.01]; no binary64 number lies between
    1/100 and that number, and no whole number either, so the comparison
    with 1/100 decides the same. *)
Definition validate (ar : arithmetic) (input_total : Q)
    (result : MainStore.MainStoreStockLookup) : outcome unit :=
  assert (is_unique (map fst result)) Duplicate_item_codes_found ;;
  assert (forallb MainStore.nonneg_cell (map snd result))
    Negative_quantities_found ;;
  assert (forallb notna (map snd result)) Null_quantities_found ;;
  let output_total := series_sum ar (map snd result) in
  assert (Qltb (abs_diff ar input_total output_total) (1 # 100))
    (Quantity_mismatch input_total output_total).

(** Steps 3 and 4 on a cleaned table. *)
Definition aggregate_and_validate (ar : arithmetic)
    (df : list MainStore.BatchRecord)
  : outcome MainStore.MainStoreStockLookup :=
  let input_total := series_sum ar (map MainStore.Quantity df) in
  let result := aggregate ar df in
  validate ar input_total result ;;
  ret result.

(** [create_main_store_stock_lookup]: [input_file] is the workbook at the
    path, [None] when no file exists there. *)
Definition create_main_store_stock_lookup (ar : arithmetic)
    (input_file : option workbook) : outcome MainStore.MainStoreStockLookup :=
  match input_file with
  | None => raise FileNotFoundError
  | Some xl =>
      match raw_sheet xl with
      | None => raise (ValueError No_RAW_DATA_sheet_found)
      | Some df =>
          let missing := missing_columns required (columns df) in
          match missing with
          | _ :: _ => raise (ValueError (Missing_columns missing))
          | [] =>
              if Nat.eqb (List.length (rows df)) 0
              then raise (ValueError Input_sheet_is_empty)
              else aggregate_and_validate ar (MainStore.clean (rows df))
          end
      end
  end.

End MainStoreRun.

(** ** Script 4: the inventory calculation sheet *)

Module InventoryCalc.
Import Py.

Definition MAIN_STORE : string := "Main Medical Store (MMS)-SEPL".

(** A cell of the column [Current SKU (TRUE/FALSE)] as Excel may hold it. *)
Inductive flag_cell : Type :=
| FlagBool (b : bool)
| FlagNumber (q : Q)
| FlagText (s : string)
| FlagBlank.

(** [cell == True]: a boolean compares by value, a number equals [True]
    when it is 1, a text or an empty cell never does. *)
Definition eq_True (c : flag_cell) : bool :=
  match c with
  | FlagBool b => b
  | FlagNumber q => Qeq_bool q 1
  | FlagText _ | FlagBlank => false
  end.

(** [bool(cell)], the truth value that [not cell] negates: zero and the
    empty text are false, NaN is true. *)
Definition truthy (c : flag_cell) : bool :=
  match c with
  | FlagBool b => b
  | FlagNumber q => negb (Qeq_bool q 0)
  | FlagText s => negb (String.eqb s "")
  | FlagBlank => true
  end.

(** One row of the master catalog; the columns that the calculation does
    not read are left out.  The four numeric cells hold numbers, as the
    data model of the catalog has them. *)
Record MasterItem : Type := {
  Item_Code : option string;
  Current_SKU : flag_cell;
  ADC : Q;
  Min_Stock_Level : Q;
  Max_Stock_Level : Q;
  Pack_size : Q
}.

(** A lookup sheet as it is read back: key column, value column. *)
Definition lookup : Type := list (option string * option Q).

(** A cell of [POCreated Date]: empty, a time (also a text that
    [pd.to_datetime] reads as that time), or a text that it cannot read.
    Times are nanoseconds since the epoch. *)
Inductive date_cell : Type :=
| DateBlank
| DateValue (t : Z)
| DateText (s : string).

(** [pd.to_datetime(cell, errors="coerce")]: [None] is NaT. *)
Definition to_datetime (c : date_cell) : option Z :=
  match c with
  | DateValue t => Some t
  | DateBlank | DateText _ => None
  end.

(** [timedelta(days=n)] *)
Definition timedelta_days (n : Z) : Z := (n * 86400 * 1000000000)%Z.

(** One line of the expected-items file. *)
Record PendingPORecord : Type := {
  PO_Item_Code : option string;
  Store_Name : option string;
  POCreated_Date : date_cell;
  Pen_Qty : option Q
}.

(** A line once [POCreated Date] has been parsed. *)
Record PORecord : Type := {
  Item : option string;
  Store : option string;
  Created : option Z;
  Pending : option Q
}.

(** The working table after the three merges. *)
Record MergedRow : Type := {
  master : MasterItem;
  Global_stock : Q;
  Main_Store_Stock : Q;
  Pending_PO : Q
}.

(** The working table after [calculate_metrics]. *)
Record InventoryRow : Type := {
  merged : MergedRow;
  Net_Stock : Q;
  Global_Stock_Days : Q;
  Main_Store_Stock_Days : Q;
  Reorder_Needed : bool;
  Order_Qty : Q
}.

(** Step 1 *)
Definition load_master (filepath : option (list MasterItem))
  : outcome (list MasterItem) :=
  match filepath with
  | None => raise FileNotFoundError
  | Some df => ret (filter (fun r => eq_True (Current_SKU r)) df)
  end.

(** Step 2 *)
Definition merge_global_stock (data : list MasterItem) (filepath : option lookup)
  : outcome (list (MasterItem * Q)) :=
  match filepath with
  | None => raise FileNotFoundError
  | Some gs =>
      ret (map (fun r => (fst r, fillna0 (snd r))) (merge_left Item_Code data gs))
  end.

(** Step 3 *)
Definition merge_main_store_stock (data : list (MasterItem * Q))
    (filepath : option lookup) : outcome (list (MasterItem * Q * Q)) :=
  match filepath with
  | None => raise FileNotFoundError
  | Some ms =>
      ret (map (fun r => (fst r, fillna0 (snd r)))
             (merge_left (fun r => Item_Code (fst r)) data ms))
  end.

Definition parse_date (r : PendingPORecord) : PORecord :=
  {| Item := PO_Item_Code r; Store := Store_Name r;
     Created := to_datetime (POCreated_Date r); Pending := Pen_Qty r |}.

(** [date >= three_months_ago]: NaT compares false. *)
Definition on_or_after (three_months_ago : Z) (d : option Z) : bool :=
  match d with
  | Some t => Z.leb three_months_ago t
  | None => false
  end.

(** The pending quantity per item code: the filtering and grouping part
    of step 4; [now] is the value of [datetime.now()]. *)
Definition pending_po (expected : list PendingPORecord) (now : Z)
  : list (string * option Q) :=
  let expected := map parse_date expected in
  let three_months_ago := (now - timedelta_days 90)%Z in
  let expected := filter (fun r => cell_is MAIN_STORE (Store r)) expected in
  let expected :=
    filter (fun r => on_or_after three_months_ago (Created r)) expected in
  groupby_sum Item Pending expected.

(** Step 4 *)
Definition process_pending_po (data : list (MasterItem * Q * Q))
    (filepath : option (list PendingPORecord)) (now : Z)
  : outcome (list MergedRow) :=
  match filepath with
  | None => raise FileNotFoundError
  | Some expected =>
      let pending := pending_po expected now in
      let data :=
        merge_left (fun r => Item_Code (fst (fst r))) data
          (map (fun p => (Some (fst p), snd p)) pending) in
      ret (map (fun r =>
                  {| master := fst (fst (fst r));
                     Global_stock := snd (fst (fst r));
                     Main_Store_Stock := snd (fst r);
                     Pending_PO := fillna0 (snd r) |}) data)
  end.

(** Columns S and T:
    [round(stock / r["ADC"], 0) if r["ADC"] > 0 else 0] *)
Definition stock_days (stock adc : Q) : outcome Q :=
  if Qgtb adc 0
  then x <- truediv stock adc ;; ret (inject_Z (round0 x))
  else ret 0%Q.

(** Column V: [calc_order_qty], on the cells of the row that it reads. *)
Definition calc_order_qty (current_sku : flag_cell) (reorder_needed : bool)
    (max_stock_level net_stock pack : Q) : outcome Q :=
  if negb (truthy current_sku) || negb reorder_needed then ret 0%Q
  else
    let shortage := (max_stock_level - net_stock)%Q in
    if Qle_bool pack 0 || Qle_bool shortage 0 then ret 0%Q
    else
      x <- truediv shortage pack ;;
      ret (max 0 (inject_Z (ceil x) * pack)%Q).

(** Steps 5 to 9 on one row: the script fills the five columns one after
    the other over the whole table; every cell depends on its own row
    only, so the row is the unit here. *)
Definition metrics_row (r : MergedRow) : outcome InventoryRow :=
  let m := master r in
  let net_stock := (Global_stock r + Pending_PO r)%Q in
  global_stock_days <- stock_days (Global_stock r) (ADC m) ;;
  main_store_stock_days <- stock_days (Main_Store_Stock r) (ADC m) ;;
  let reorder_needed :=
    eq_True (Current_SKU m) && Qltb net_stock (Min_Stock_Level m) in
  order_qty <- calc_order_qty (Current_SKU m) reorder_needed
                 (Max_Stock_Level m) net_stock (Pack_size m) ;;
  ret {| merged := r;
         Net_Stock := net_stock;
         Global_Stock_Days := global_stock_days;
         Main_Store_Stock_Days := main_store_stock_days;
         Reorder_Needed := reorder_needed;
         Order_Qty := order_qty |}.

(** [calculate_metrics].  On a table without rows
    [df.apply(calc_order_qty, axis=1)] gives back a frame, not a column
    (its trial of [calc_order_qty] on a row of NaN fails in [math.ceil]),
    and the assignment of a frame to the column [Order Qty] raises
    ValueError. *)
Definition calculate_metrics (data : list MergedRow)
  : outcome (list InventoryRow) :=
  match data with
  | [] => raise (ValueError Cannot_set_a_DataFrame_to_a_single_column)
  | _ :: _ => mapM metrics_row data
  end.

(** The recomputation of [Net Stock] in [validate]. *)
Definition net_ok (df : list InventoryRow) : bool :=
  forallb
    (fun r =>
       Qeq_bool (Net_Stock r)
         (Global_stock (merged r) + Pending_PO (merged r))%Q)
    df.

(** [validate]; the column count is only reported. *)
Definition validate (df : list InventoryRow) : outcome unit :=
  assert (net_ok df) Net_Stock_calculation_error ;;
  assert (forallb (fun r => Qgeb (Order_Qty r) 0) df)
    Negative_order_quantities_found.

(** [run], up to the table that it returns; the export writes a sorted
    copy to the output file and leaves the table as it is. *)
Definition run (master_file : option (list MasterItem))
    (global_stock_file main_store_file : option lookup)
    (expected_items_file : option (list PendingPORecord)) (now : Z)
  : outcome (list InventoryRow) :=
  data <- load_master master_file ;;
  data <- merge_global_stock data global_stock_file ;;
  data <- merge_main_store_stock data main_store_file ;;
  data <- process_pending_po data expected_items_file now ;;
  data <- calculate_metrics data ;;
  validate data ;;
  ret data.

End InventoryCalc.

(** ** Script 4: the order of the exported sheet *)

Module InventoryExport.
Import Py InventoryCalc.

(** [a] sorts strictly before [b] under
    [sort_values(["Reorder Needed?", "Order Qty"], ascending=[False, False])]:
    a row that needs a reorder before one that does not, and among rows
    with the same flag the larger order quantity first. *)
Definition sorts_before (a b : InventoryRow) : bool :=
  (Reorder_Needed a && negb (Reorder_Needed b))
  || (Bool.eqb (Reorder_Needed a) (Reorder_Needed b)
      && Qltb (Order_Qty b) (Order_Qty a)).

(** The place of [a] among rows that are in order already, [a] coming
    from above them in the table. *)
Fixpoint place (a : InventoryRow) (l : list InventoryRow) : list InventoryRow :=
  match l with
  | [] => [a]
  | b :: l' => if sorts_before b a then b :: place a l' else a :: l
  end.

(** The rows of the sheet that [export] writes, in its order: the table
    sorted on the two columns, rows that tie keeping their order. *)
Fixpoint export (df : list InventoryRow) : list InventoryRow :=
  match df with
  | [] => []
  | a :: df' => place a (export df')
  end.

End InventoryExport.

(** * Properties *)

(** ** The primitives *)

Section StringOrder.

Lemma ascii_compare_N (a b : ascii) :
  Ascii.compare a b = N.compare (N_of_ascii a) (N_of_ascii b).
Proof. reflexivity. Qed.

Lemma compare_refl (s : string) : String.compare s s = Eq.
Proof.
  induction s as [|c s IH]; simpl; trivial.
  rewrite ascii_compare_N, N.compare_refl. exact IH.
Qed.

Lemma compare_lt_trans (a b c : string) :
  String.compare a b = Lt -> String.compare b c = Lt ->
  String.compare a c = Lt.
Proof.
  revert b c.
  induction a as [|x a IH]; intros [|y b] [|z c]; simpl;
    try discriminate; trivial.
  rewrite !ascii_compare_N.
  destruct (N.compare_spec (N_of_ascii x) (N_of_ascii y)) as [exy|lxy|gxy];
    try discriminate;
    destruct (N.compare_spec (N_of_ascii y) (N_of_ascii z)) as [eyz|lyz|gyz];
    try discriminate; intros Hab Hbc.
  - rewrite exy, eyz, N.compare_refl. eauto.
  - rewrite exy. apply N.compare_lt_iff in lyz. now rewrite lyz.
  - rewrite <- eyz. apply N.compare_lt_iff in lxy. now rewrite lxy.
  - assert (H : (N_of_ascii x < N_of_ascii z)%N) by lia.
    apply N.compare_lt_iff in H. now rewrite H.
Qed.

Lemma ltb_trans (a b c : string) :
  String.ltb a b = true -> String.ltb b c = true -> String.ltb a c = true.
Proof.
  unfold String.ltb. intros Hab Hbc.
  destruct (String.compare a b) eqn:Eab; try discriminate.
  destruct (String.compare b c) eqn:Ebc; try discriminate.
  now rewrite (compare_lt_trans a b c Eab Ebc).
Qed.

Lemma ltb_irrefl (a : string) : String.ltb a a = false.
Proof. unfold String.ltb. now rewrite compare_refl. Qed.

(** Two different strings are ordered one way or the other. *)
Lemma ltb_total (a b : string) :
  a <> b -> String.ltb b a = false -> String.ltb a b = true.
Proof.
  unfold String.ltb. intros Hne.
  rewrite (String.compare_antisym b a).
  destruct (String.compare a b) eqn:E; simpl; trivial; try discriminate.
  apply String.compare_eq_iff in E. contradiction.
Qed.

End StringOrder.

(** [ascending l]: the texts of [l] increase strictly. *)
Definition ascending (l : list string) : Prop :=
  StronglySorted (fun a b => String.ltb a b = true) l.

Section SortFacts.
Context {A : Type} (key : A -> string).

(** Nothing of [l] sorts before its predecessors. *)
Definition ordered (l : list A) : Prop :=
  StronglySorted (fun a b => String.ltb (key b) (key a) = false) l.

Lemma insert_perm (a : A) (l : list A) :
  Permutation (a :: l) (Py.insert key a l).
Proof.
  induction l as [|b l IH]; simpl; auto.
  destruct (String.ltb (key b) (key a)); auto.
  rewrite perm_swap. now constructor.
Qed.

Lemma sort_values_perm (l : list A) : Permutation l (Py.sort_values key l).
Proof.
  induction l as [|a l IH]; simpl; auto.
  rewrite <- insert_perm. now constructor.
Qed.

Lemma insert_ordered (a : A) (l : list A) :
  ordered l -> ordered (Py.insert key a l).
Proof.
  unfold ordered.
  induction l as [|b l IH]; simpl; intros Hl.
  - repeat constructor.
  - inversion Hl as [|? ? Hl' Hb]; subst.
    destruct (String.ltb (key b) (key a)) eqn:E.
    + constructor; [now apply IH|].
      apply (Permutation_Forall (insert_perm a l)).
      constructor; trivial.
      destruct (String.ltb (key a) (key b)) eqn:E'; trivial.
      pose proof (ltb_trans _ _ _ E E') as F.
      now rewrite ltb_irrefl in F.
    + constructor; trivial. constructor; trivial.
      rewrite Forall_forall in *. intros c Hc.
      specialize (Hb c Hc).
      destruct (String.ltb (key c) (key a)) eqn:E'; trivial.
      destruct (string_dec (key b) (key c)) as [e|n].
      * rewrite e in E. congruence.
      * pose proof (ltb_total _ _ n Hb) as F.
        pose proof (ltb_trans _ _ _ F E'). congruence.
Qed.

Lemma sort_values_ordered (l : list A) : ordered (Py.sort_values key l).
Proof.
  induction l as [|a l IH]; simpl.
  - constructor.
  - apply insert_ordered, IH.
Qed.

(** Sorting a table that is in order already changes nothing. *)
Lemma sort_values_id (l : list A) : ordered l -> Py.sort_values key l = l.
Proof.
  unfold ordered. induction 1 as [|a l Hl IH Ha]; simpl; trivial.
  rewrite IH. destruct l as [|b l]; simpl; trivial.
  inversion Ha as [|? ? Hb]; subst. now rewrite Hb.
Qed.

End SortFacts.

Lemma ordered_map {A} (key : A -> string) (l : list A) :
  ordered (fun k => k) (map key l) -> ordered key l.
Proof.
  unfold ordered. induction l as [|a l IH]; simpl; intros H.
  - constructor.
  - inversion H as [|? ? Hl Ha]; subst. constructor; auto.
    rewrite Forall_forall in *. intros b Hb. apply Ha. now apply in_map.
Qed.

Lemma ordered_NoDup_ascending (l : list string) :
  ordered (fun k => k) l -> NoDup l -> ascending l.
Proof.
  unfold ordered, ascending. induction 1 as [|a l Hl IH Ha]; intros Hnd.
  - constructor.
  - inversion Hnd as [|? ? Hin Hnd']; subst. constructor; auto.
    rewrite Forall_forall in *. intros b Hb.
    apply ltb_total; auto. intros ->. contradiction.
Qed.

Lemma ascending_ordered (l : list string) :
  ascending l -> ordered (fun k => k) l.
Proof.
  unfold ordered, ascending. induction 1 as [|a l Hl IH Ha]; constructor; auto.
  rewrite Forall_forall in *. intros b Hb. specialize (Ha b Hb).
  destruct (String.ltb b a) eqn:E; trivial.
  pose proof (ltb_trans _ _ _ Ha E) as F. now rewrite ltb_irrefl in F.
Qed.

Lemma ascending_NoDup (l : list string) : ascending l -> NoDup l.
Proof.
  unfold ascending. induction 1 as [|a l Hl IH Ha]; constructor; auto.
  intros Hin. rewrite Forall_forall in Ha. specialize (Ha a Hin).
  now rewrite ltb_irrefl in Ha.
Qed.

Lemma is_unique_NoDup (l : list string) : Py.is_unique l = true <-> NoDup l.
Proof.
  induction l as [|a l IH]; simpl.
  - split; [constructor | trivial].
  - rewrite andb_true_iff, negb_true_iff, IH. split.
    + intros [Hn Hd]. constructor; trivial. intros Hin.
      assert (H : existsb (String.eqb a) l = true).
      { apply existsb_exists. exists a. split; trivial. apply String.eqb_refl. }
      congruence.
    + intros H. inversion H as [|? ? Hin Hd]; subst. split; trivial.
      destruct (existsb (String.eqb a) l) eqn:E; trivial.
      apply existsb_exists in E. destruct E as [b [Hb Hab]].
      apply String.eqb_eq in Hab. subst. contradiction.
Qed.

Lemma dropna_In {A} (a : A) (l : list (option A)) :
  In a (Py.dropna l) <-> In (Some a) l.
Proof.
  induction l as [|[b|] l IH]; simpl.
  - tauto.
  - rewrite IH. split; intros [H|H]; auto; left; congruence.
  - rewrite IH. split; [auto | intros [H|H]; [discriminate | trivial]].
Qed.

(** *** Sums of columns *)

Section SumFacts.
Open Scope Q_scope.

Lemma sum_cons (v : option Q) (col : list (option Q)) :
  Py.sum (v :: col) == Py.fillna0 v + Py.sum col.
Proof. destruct v; simpl; ring. Qed.

Lemma sum_app (c1 c2 : list (option Q)) :
  Py.sum (c1 ++ c2) == Py.sum c1 + Py.sum c2.
Proof.
  induction c1 as [|[q|] c1 IH]; simpl; try rewrite IH; ring.
Qed.

(** The sum of a column of numbers [f k], [k] ranging over [ks]. *)
Definition total (f : string -> Q) (ks : list string) : Q :=
  Py.sum (map (fun k => Some (f k)) ks).

Lemma total_ext (f g : string -> Q) (ks : list string) :
  (forall k, In k ks -> f k == g k) -> total f ks == total g ks.
Proof.
  unfold total. induction ks as [|k ks IH]; simpl; intros H.
  - reflexivity.
  - rewrite (H k), IH; [reflexivity | | now left].
    intros k' Hk'. apply H. now right.
Qed.

Lemma total_zero (ks : list string) : total (fun _ => 0) ks == 0.
Proof. unfold total. induction ks; simpl; [|rewrite IHks]; ring. Qed.

(** Adding [x] to the entry of one key adds [x] to the total once. *)
Lemma total_add_at (k0 : string) (x : Q) (f : string -> Q) (ks : list string) :
  NoDup ks ->
  total (fun k => if String.eqb k0 k then x + f k else f k) ks
  == (if in_dec string_dec k0 ks then x else 0) + total f ks.
Proof.
  unfold total. induction 1 as [|k ks Hin Hnd IH]; simpl.
  - ring.
  - rewrite IH. destruct (String.eqb_spec k0 k) as [e|n].
    + subst k. destruct (string_dec k0 k0) as [e|c]; [|contradiction].
      destruct (in_dec string_dec k0 ks); [contradiction | ring].
    + destruct (string_dec k k0) as [e|c]; [congruence|].
      destruct (in_dec string_dec k0 ks); ring.
Qed.

End SumFacts.

(** *** Grouping *)

Section GroupByFacts.
Context {A : Type} (key : A -> option string) (val : A -> option Q).
Open Scope Q_scope.

Lemma group_keys_In (k : string) (df : list A) :
  In k (Py.group_keys key df) <-> exists r, In r df /\ key r = Some k.
Proof.
  unfold Py.group_keys.
  split.
  - intros H.
    apply (Permutation_in _ (Permutation_sym (sort_values_perm _ _))) in H.
    apply nodup_In, dropna_In, in_map_iff in H.
    destruct H as [r [Hr Hin]]. eauto.
  - intros [r [Hin Hr]].
    apply (Permutation_in _ (sort_values_perm _ _)).
    apply nodup_In, dropna_In. rewrite <- Hr. now apply in_map.
Qed.

Lemma group_keys_NoDup (df : list A) : NoDup (Py.group_keys key df).
Proof.
  unfold Py.group_keys.
  eapply Permutation_NoDup; [apply sort_values_perm | apply NoDup_nodup].
Qed.

Lemma group_keys_ascending (df : list A) : ascending (Py.group_keys key df).
Proof.
  apply ordered_NoDup_ascending.
  - apply sort_values_ordered.
  - apply group_keys_NoDup.
Qed.

Lemma groupby_sum_keys (df : list A) :
  map fst (Py.groupby_sum key val df) = Py.group_keys key df.
Proof.
  unfold Py.groupby_sum. rewrite map_map. simpl. apply map_id.
Qed.

Lemma groupby_sum_values (df : list A) :
  map snd (Py.groupby_sum key val df)
  = map (fun k => Some (Py.sum (map val (Py.group key k df))))
      (Py.group_keys key df).
Proof. unfold Py.groupby_sum. now rewrite map_map. Qed.

(** A row of the grouped table: a key that occurs, with the sum of the
    rows that carry it. *)
Lemma groupby_sum_In (k : string) (v : option Q) (df : list A) :
  In (k, v) (Py.groupby_sum key val df)
  <-> (exists r, In r df /\ key r = Some k)
      /\ v = Some (Py.sum (map val (Py.group key k df))).
Proof.
  rewrite <- group_keys_In. unfold Py.groupby_sum. rewrite in_map_iff.
  split.
  - intros [k' [E Hin]]. inversion E; subst. auto.
  - intros [Hin ->]. eauto.
Qed.

(** The grouped table is in order already: sorting it again by its key
    column returns it unchanged. *)
Lemma sort_values_groupby_sum (df : list A) :
  Py.sort_values fst (Py.groupby_sum key val df) = Py.groupby_sum key val df.
Proof.
  apply sort_values_id, ordered_map. rewrite groupby_sum_keys.
  apply ascending_ordered, group_keys_ascending.
Qed.

(** Grouping keeps the quantity of every row that has a key, and of no
    other row. *)
Lemma groups_conserve (ks : list string) (df : list A) :
  NoDup ks ->
  (forall r k, In r df -> key r = Some k -> In k ks) ->
  total (fun k => Py.sum (map val (Py.group key k df))) ks
  == Py.sum (map val (filter (fun r => Py.notna (key r)) df)).
Proof.
  intros Hnd. induction df as [|r df IH]; intros Hks.
  - simpl. apply total_zero.
  - assert (Hks' : forall r k, In r df -> key r = Some k -> In k ks).
    { intros r' k Hr'. apply Hks. now right. }
    specialize (IH Hks').
    cbn [filter]. destruct (key r) as [k0|] eqn:Ek; cbn [Py.notna map].
    + rewrite sum_cons, <- IH.
      assert (Hin : In k0 ks) by (apply (Hks r); [now left | trivial]).
      rewrite (total_ext _
        (fun k => if String.eqb k0 k
                  then Py.fillna0 (val r) + Py.sum (map val (Py.group key k df))
                  else Py.sum (map val (Py.group key k df)))).
      * rewrite total_add_at by trivial.
        destruct (in_dec string_dec k0 ks); [reflexivity | contradiction].
      * intros k _. unfold Py.group. cbn [filter]. rewrite Ek.
        cbn [Py.cell_is].
        destruct (String.eqb k0 k); [|reflexivity].
        cbn [map]. apply sum_cons.
    + rewrite <- IH. apply total_ext. intros k _.
      unfold Py.group. cbn [filter]. rewrite Ek. reflexivity.
Qed.

Lemma groupby_sum_conserves (df : list A) :
  Py.sum (map snd (Py.groupby_sum key val df))
  == Py.sum (map val (filter (fun r => Py.notna (key r)) df)).
Proof.
  rewrite groupby_sum_values.
  apply (groups_conserve (Py.group_keys key df) df).
  - apply group_keys_NoDup.
  - intros r k Hr Hk. apply group_keys_In. eauto.
Qed.

End GroupByFacts.

(** *** Blank texts *)

Lemma rstrip_nonspace (c : ascii) (s : string) :
  Py.isspace c = false -> Py.rstrip (String c s) <> EmptyString.
Proof.
  intros Hc. simpl. destruct (Py.rstrip s); [rewrite Hc|]; discriminate.
Qed.

(** [strip] leaves nothing exactly when every character is a space. *)
Lemma strip_empty_iff (s : string) :
  Py.strip s = EmptyString
  <-> forallb Py.isspace (list_ascii_of_string s) = true.
Proof.
  unfold Py.strip. induction s as [|c s IH]; simpl.
  - tauto.
  - destruct (Py.isspace c) eqn:Hc; simpl.
    + exact IH.
    + split; [|discriminate]. intros H.
      exfalso. revert H. apply (rstrip_nonspace c s Hc).
Qed.

Example strip_keeps_inner_spaces :
  Py.strip "  Paracetamol 500 mg  " = "Paracetamol 500 mg"%string
  /\ Py.strip (String (ascii_of_N 9) (String (ascii_of_N 160) " ")) = EmptyString.
Proof. split; reflexivity. Qed.

Example raw_sheet_name_matches :
  Py.contains "raw" (Py.lower "RAW DATA") = true
  /\ Py.contains "raw" (Py.lower "Summary") = false.
Proof. split; reflexivity. Qed.

(** ** Script 1 *)

Module GlobalStockFacts.
Import GlobalStock.

(** A row passes the three filters. *)
Definition survives (r : RawStockRecord) : bool :=
  has_description r && Py.notna (to_numeric (Qty r)).

(** The description is blank or missing. *)
Definition blank_or_missing (d : option string) : Prop :=
  match d with
  | None => True
  | Some s => Py.strip s = EmptyString
  end.

Lemma clean_filter (df : list RawStockRecord) :
  clean df = map convert_qty (filter survives df).
Proof.
  unfold clean, survives. induction df as [|r df IH]; simpl; trivial.
  destruct (has_description r); simpl; trivial.
  unfold has_qty at 1. destruct (Qty r) eqn:E; simpl; trivial;
    unfold numeric_qty at 1; simpl; rewrite E; simpl; trivial.
  now rewrite IH.
Qed.

Lemma blank_not_survives (r : RawStockRecord) :
  blank_or_missing (Description r) -> survives r = false.
Proof.
  unfold blank_or_missing, survives, has_description.
  destruct (Description r) as [s|]; simpl; trivial.
  intros ->. reflexivity.
Qed.

Lemma global_aggregate_groupby (df : list StockRecord) :
  aggregate df = Py.groupby_sum Item_Code Quantity df.
Proof. unfold aggregate. apply sort_values_groupby_sum. Qed.

Lemma nonneg_cell_spec (v : option Q) :
  nonneg_cell v = true <-> exists q, v = Some q /\ (0 <= q)%Q.
Proof.
  unfold nonneg_cell, Py.Qgeb. destruct v as [q|].
  - rewrite Qle_bool_iff. split; [eauto | intros [q' [E H]]].
    now inversion E.
  - split; [discriminate | intros [q [E _]]; discriminate].
Qed.

(** What [create_global_stock_lookup] returns, when it returns. *)
Lemma create_returns (input : option (list RawStockRecord))
    (t : GlobalStockLookup) :
  create_global_stock_lookup input = inr t ->
  exists df, input = Some df /\ t = aggregate (clean df)
             /\ validate t = inr tt.
Proof.
  unfold create_global_stock_lookup. destruct input as [df|]; [|discriminate].
  destruct (Nat.eqb (List.length df) 0); [discriminate|].
  destruct (Nat.eqb (List.length (clean df)) 0); [discriminate|].
  destruct (validate (aggregate (clean df))) as [e|[]] eqn:V; simpl;
    [discriminate|].
  intros E. inversion E; subst. eauto.
Qed.

Lemma global_validate_passes (t : GlobalStockLookup) :
  validate t = inr tt ->
  existsb (String.eqb "Intransit Store") (map fst t) = false
  /\ Py.is_unique (map fst t) = true
  /\ forallb nonneg_cell (map snd t) = true
  /\ forallb Py.notna (map snd t) = true.
Proof.
  unfold validate, Py.assert.
  destruct (existsb _ _); simpl; [discriminate|].
  destruct (Py.is_unique _); simpl; [|discriminate].
  destruct (forallb nonneg_cell _); simpl; [|discriminate].
  destruct (forallb Py.notna _); simpl; [|discriminate].
  auto.
Qed.

(** The rows of the scenario of the specification. *)
Definition scenario_1 : list RawStockRecord :=
  [ {| ItemCode := Some "A1"; Description := Some "Widget"; Qty := QtyNumber 10 |};
    {| ItemCode := Some "A1"; Description := Some "Widget"; Qty := QtyNumber 5 |};
    {| ItemCode := Some "A2"; Description := Some ""; Qty := QtyNumber 3 |} ]%string.

(** A report whose only row carries the placeholder as its item code. *)
Definition intransit_report : list RawStockRecord :=
  [ {| ItemCode := Some "Intransit Store"; Description := Some "In transit";
       Qty := QtyNumber 5 |} ]%string.

(** A report with a negative total for an item. *)
Definition negative_report : list RawStockRecord :=
  [ {| ItemCode := Some "A1"; Description := Some "Widget";
       Qty := QtyNumber (-5) |} ]%string.

(** A report with a row whose item code cell is empty. *)
Definition unkeyed_report : list RawStockRecord :=
  [ {| ItemCode := None; Description := Some "Widget"; Qty := QtyNumber 5 |};
    {| ItemCode := Some "A1"; Description := Some "Widget"; Qty := QtyNumber 10 |} ]%string.

(** C5. The aggregator drops every row whose description is blank or
    missing (such a row changes nothing of the cleaned table), its table
    has one row per item code of the surviving rows, holding the sum of
    their quantities, the item codes increase strictly, and a call returns
    this table or raises; the three rows of scenario 1 give the single row
    ("A1", 15). *)
Theorem global_stock_groups_and_sorts (df : list RawStockRecord) :
  (forall l1 r l2, df = l1 ++ r :: l2 -> blank_or_missing (Description r) ->
                   clean df = clean (l1 ++ l2))
  /\ (forall code v,
        In (code, v) (aggregate (clean df))
        <-> (exists r, In r (clean df) /\ Item_Code r = Some code)
            /\ v = Some (Py.sum (map Quantity
                   (filter (fun r => Py.cell_is code (Item_Code r)) (clean df)))))
  /\ ascending (map fst (aggregate (clean df)))
  /\ (create_global_stock_lookup (Some df) = inr (aggregate (clean df))
      \/ exists e, create_global_stock_lookup (Some df) = inl e)
  /\ create_global_stock_lookup (Some scenario_1) = inr [("A1"%string, Some 15%Q)].
Proof.
  split; [|split; [|split; [|split]]].
  - intros l1 r l2 -> Hb. rewrite !clean_filter, !filter_app. simpl.
    now rewrite (blank_not_survives r Hb).
  - intros code v. rewrite global_aggregate_groupby. apply groupby_sum_In.
  - rewrite global_aggregate_groupby, groupby_sum_keys. apply group_keys_ascending.
  - destruct (create_global_stock_lookup (Some df)) as [e|t] eqn:E.
    + right. eauto.
    + left. apply create_returns in E. destruct E as [df' [E [-> _]]].
      now inversion E.
  - reflexivity.
Qed.

(** C6, as amended. A table that the aggregator returns has no
    "Intransit Store" item code, its item codes are unique, and each of
    its quantities is a number that is not negative; the assertions on
    uniqueness and on null quantities hold of every aggregated table. *)
Theorem global_stock_postconditions (input : option (list RawStockRecord))
    (t : GlobalStockLookup) :
  create_global_stock_lookup input = inr t ->
  (~ In "Intransit Store"%string (map fst t)
   /\ NoDup (map fst t)
   /\ Forall (fun v => exists q, v = Some q /\ (0 <= q)%Q) (map snd t))
  /\ (forall cleaned,
        Py.is_unique (map fst (aggregate cleaned)) = true
        /\ forallb Py.notna (map snd (aggregate cleaned)) = true).
Proof.
  intros H. apply create_returns in H. destruct H as [df [_ [_ V]]].
  apply global_validate_passes in V. destruct V as [V1 [V2 [V3 V4]]].
  split; [repeat split|].
  - intros Hin.
    assert (E : existsb (String.eqb "Intransit Store") (map fst t) = true).
    { apply existsb_exists. eexists. split; [exact Hin | apply String.eqb_refl]. }
    congruence.
  - now apply is_unique_NoDup.
  - apply Forall_forall. intros v Hv. apply nonneg_cell_spec.
    rewrite forallb_forall in V3. now apply V3.
  - intros cleaned. rewrite global_aggregate_groupby. split.
    + apply is_unique_NoDup. rewrite groupby_sum_keys. apply group_keys_NoDup.
    + rewrite groupby_sum_values. apply forallb_forall.
      intros v Hv. apply in_map_iff in Hv. destruct Hv as [k [<- _]].
      reflexivity.
Qed.

Lemma global_stock_postconditions_witness :
  create_global_stock_lookup (Some scenario_1) = inr [("A1"%string, Some 15%Q)]
  /\ NoDup (map fst [("A1"%string, Some 15%Q)]).
Proof.
  split; [reflexivity|].
  apply (global_stock_postconditions (Some scenario_1) [("A1"%string, Some 15%Q)]).
  reflexivity.
Defined.

(** C6, as stated, fails: these two reports pass the cleaning and reach
    the assertions, and an assertion fails on each. *)
Lemma global_stock_assertions_can_fail :
  clean intransit_report <> []
  /\ create_global_stock_lookup (Some intransit_report)
     = inl (Py.AssertionError Py.Intransit_Store_should_be_removed)
  /\ clean negative_report <> []
  /\ create_global_stock_lookup (Some negative_report)
     = inl (Py.AssertionError Py.Negative_quantities_found).
Proof. repeat split; try discriminate; reflexivity. Qed.

(** C10, as amended. The quantities of the aggregated table add up to the
    quantities of the rows that pass the three filters and carry an item
    code. *)
Theorem global_stock_total (df : list RawStockRecord) :
  (Py.sum (map snd (aggregate (clean df)))
   == Py.sum (map Quantity
        (filter (fun r => Py.notna (Item_Code r)) (clean df))))%Q.
Proof. rewrite global_aggregate_groupby. apply groupby_sum_conserves. Qed.

(** C10, as stated, fails: a surviving row without item code is in no
    group, and its quantity is missing from the total. *)
Lemma global_stock_total_loses_unkeyed :
  create_global_stock_lookup (Some unkeyed_report) = inr [("A1"%string, Some 10%Q)]
  /\ map Quantity (clean unkeyed_report) = [Some 5%Q; Some 10%Q]
  /\ ~ (Py.sum (map snd (aggregate (clean unkeyed_report)))
        == Py.sum (map Quantity (clean unkeyed_report)))%Q.
Proof.
  repeat split. vm_compute. discriminate.
Qed.

End GlobalStockFacts.

Lemma Qltb_lt (x y : Q) : Py.Qltb x y = true <-> (x < y)%Q.
Proof.
  unfold Py.Qltb. rewrite negb_true_iff. split.
  - intros H. apply Qnot_le_lt. intros L.
    apply Qle_bool_iff in L. congruence.
  - intros H. destruct (Qle_bool y x) eqn:E; trivial.
    apply Qle_bool_iff in E. exfalso. revert E. now apply Qlt_not_le.
Qed.

Lemma Qltb_ge (x y : Q) : Py.Qltb x y = false <-> (y <= x)%Q.
Proof.
  unfold Py.Qltb. rewrite negb_false_iff. apply Qle_bool_iff.
Qed.

Lemma filter_all {A} (p : A -> bool) (l : list A) :
  Forall (fun a => p a = true) l -> filter p l = l.
Proof.
  induction 1 as [|a l Ha Hl IH]; simpl; trivial. now rewrite Ha, IH.
Qed.

Lemma filter_Forall {A} (p : A -> bool) (l : list A) :
  Forall (fun a => p a = true) (filter p l).
Proof. apply Forall_forall. intros a Ha. now apply filter_In in Ha. Qed.

(** ** Script 2 *)

Module MainStoreFacts.
Import MainStore.

Lemma count_zero {A} (p : A -> bool) (l : list A) :
  count p l = 0%nat -> Forall (fun a => p a = false) l.
Proof.
  unfold count. induction l as [|a l IH]; simpl; intros H; constructor.
  - destruct (p a); [discriminate | trivial].
  - apply IH. destruct (p a); [discriminate | trivial].
Qed.

(** After the quality checks every row has an item code. *)
Lemma clean_keyed (df : list RawBatchRecord) :
  Forall (fun r => Py.notna (Item_Code r) = true) (clean df).
Proof.
  unfold clean.
  set (df1 := if negb _ then _ else df). clearbody df1.
  apply Forall_forall. intros r Hr.
  apply filter_In in Hr. destruct Hr as [Hr _].
  apply in_map_iff in Hr. destruct Hr as [raw [<- Hraw]]. simpl.
  destruct (Nat.ltb 0 (count (fun r => Py.isna (ItemCode r)) df1)) eqn:E; simpl in Hraw.
  - apply filter_In in Hraw. destruct Hraw as [_ H].
    now apply andb_true_iff in H.
  - assert (Z : count (fun r => Py.isna (ItemCode r)) df1 = 0%nat).
    { apply Nat.ltb_ge in E. lia. }
    apply count_zero in Z. rewrite Forall_forall in Z.
    assert (Hin : In raw df1).
    { destruct (Nat.ltb 0 _) in Hraw; simpl in Hraw; trivial.
      now apply filter_In in Hraw. }
    specialize (Z raw Hin). unfold Py.isna in Z.
    now apply negb_false_iff in Z.
Qed.

Lemma main_aggregate_groupby (df : list BatchRecord) :
  aggregate df = Py.groupby_sum Item_Code Quantity df.
Proof. unfold aggregate. apply sort_values_groupby_sum. Qed.

(** Grouping a cleaned table keeps its total, exactly. *)
Lemma aggregate_conserves (raw : list RawBatchRecord) :
  (Py.sum (map snd (aggregate (clean raw)))
   == Py.sum (map Quantity (clean raw)))%Q.
Proof.
  rewrite main_aggregate_groupby, groupby_sum_conserves.
  now rewrite (filter_all _ _ (clean_keyed raw)).
Qed.

(** The workbook of scenario 2: one batch of another store, one batch of
    seven units in the main store. *)
Definition scenario_2 : workbook :=
  [ ("Summary", []);
    ("RAW DATA",
     [ {| ItemCode := Some "B7"; Qty := QtyNumber 4;
          StoreName := Some "Ward 3 Sub Store" |};
       {| ItemCode := Some "B7"; Qty := QtyNumber 7;
          StoreName := Some MAIN_STORE |} ]) ]%string.

End MainStoreFacts.

(** ** Scripts 1 and 2 on the numbers of the machine *)

Section MachineFacts.
Context (ar : Machine.arithmetic) {A : Type}.
Context (key : A -> option string) (val : A -> option Q).

Lemma machine_groupby_keys (df : list A) :
  map fst (Machine.groupby_sum ar key val df) = Py.group_keys key df.
Proof.
  unfold Machine.groupby_sum. rewrite map_map. simpl. apply map_id.
Qed.

(** The grouped table is in order already. *)
Lemma machine_groupby_sorted (df : list A) :
  Py.sort_values fst (Machine.groupby_sum ar key val df)
  = Machine.groupby_sum ar key val df.
Proof.
  apply sort_values_id, ordered_map. rewrite machine_groupby_keys.
  apply ascending_ordered, group_keys_ascending.
Qed.

Lemma machine_groupby_unique (df : list A) :
  Py.is_unique (map fst (Machine.groupby_sum ar key val df)) = true.
Proof.
  rewrite machine_groupby_keys. apply is_unique_NoDup, group_keys_NoDup.
Qed.

Lemma machine_groupby_notna (df : list A) :
  forallb Py.notna (map snd (Machine.groupby_sum ar key val df)) = true.
Proof.
  unfold Machine.groupby_sum. rewrite map_map. apply forallb_forall.
  intros v Hv. apply in_map_iff in Hv. now destruct Hv as [k [<- _]].
Qed.

End MachineFacts.

(** On exact arithmetic the grouped table is that of [Py.groupby_sum]. *)
Lemma machine_groupby_exact {A} (key : A -> option string)
    (val : A -> option Q) (df : list A) :
  Machine.groupby_sum Machine.exact key val df = Py.groupby_sum key val df.
Proof. reflexivity. Qed.

(** *** Script 2 *)

Module MainStoreRunFacts.
Import MainStoreRun.

Lemma main_run_aggregate (ar : Machine.arithmetic)
    (df : list MainStore.BatchRecord) :
  aggregate ar df
  = Machine.groupby_sum ar MainStore.Item_Code MainStore.Quantity df.
Proof. unfold aggregate. apply machine_groupby_sorted. Qed.

(** The call, case by case. *)
Lemma main_run_cases (ar : Machine.arithmetic) (xl : workbook) :
  create_main_store_stock_lookup ar (Some xl)
  = match raw_sheet xl with
    | None => inl (Py.ValueError Py.No_RAW_DATA_sheet_found)
    | Some sh =>
        match Machine.missing_columns required (columns sh) with
        | _ :: _ =>
            inl (Py.ValueError
                   (Py.Missing_columns
                      (Machine.missing_columns required (columns sh))))
        | [] =>
            if Nat.eqb (List.length (rows sh)) 0
            then inl (Py.ValueError Py.Input_sheet_is_empty)
            else
              let df := MainStore.clean (rows sh) in
              let input_total :=
                Machine.series_sum ar (map MainStore.Quantity df) in
              let output_total :=
                Machine.series_sum ar (map snd (aggregate ar df)) in
              if forallb MainStore.nonneg_cell (map snd (aggregate ar df))
              then
                if Py.Qltb (Machine.abs_diff ar input_total output_total)
                     (1 # 100)
                then inr (aggregate ar df)
                else inl (Py.AssertionError
                            (Py.Quantity_mismatch input_total output_total))
              else inl (Py.AssertionError Py.Negative_quantities_found)
        end
    end.
Proof.
  unfold create_main_store_stock_lookup.
  destruct (raw_sheet xl) as [sh|]; trivial.
  destruct (Machine.missing_columns required (columns sh)); trivial.
  destruct (Nat.eqb (List.length (rows sh)) 0); trivial.
  unfold aggregate_and_validate, validate, Py.assert. cbv zeta.
  rewrite main_run_aggregate, machine_groupby_unique, machine_groupby_notna.
  cbn [Py.bind].
  destruct (forallb MainStore.nonneg_cell _); cbn [Py.bind]; trivial.
  destruct (Py.Qltb _ _); reflexivity.
Qed.

(** The rows of the sheets, without their headers. *)
Definition rows_of (xl : workbook) : MainStore.workbook :=
  map (fun s => (fst s, rows (snd s))) xl.

Lemma raw_sheet_rows_of (xl : workbook) :
  MainStore.raw_sheet (rows_of xl) = option_map rows (raw_sheet xl).
Proof.
  unfold MainStore.raw_sheet, raw_sheet, rows_of.
  induction xl as [|s xl IH]; cbn [map find]; trivial.
  cbn [fst]. destruct (Py.contains "raw" (Py.lower (fst s))); trivial.
Qed.

(** On exact arithmetic, and when the RAW DATA sheet has the required
    columns, the call is that of [MainStore]. *)
Lemma main_run_exact (xl : workbook) :
  (forall sh, raw_sheet xl = Some sh ->
              Machine.missing_columns required (columns sh) = []) ->
  create_main_store_stock_lookup Machine.exact (Some xl)
  = MainStore.create_main_store_stock_lookup (Some (rows_of xl)).
Proof.
  intros H. unfold create_main_store_stock_lookup,
    MainStore.create_main_store_stock_lookup.
  rewrite raw_sheet_rows_of.
  destruct (raw_sheet xl) as [sh|]; trivial.
  rewrite (H sh eq_refl). reflexivity.
Qed.

(** The workbook of scenario 2: one batch of another store, one batch of
    seven units in the main store. *)
Definition scenario_2_book : workbook :=
  [ ("Summary"%string, {| columns := []; rows := [] |});
    ("RAW DATA"%string,
     {| columns := [ITEM_COL; "Batch No."; QTY_COL; "Store Name"]%string;
        rows :=
          [ {| MainStore.ItemCode := Some "B7"%string;
               MainStore.Qty := QtyNumber 4;
               MainStore.StoreName := Some "Ward 3 Sub Store"%string |};
            {| MainStore.ItemCode := Some "B7"%string;
               MainStore.Qty := QtyNumber 7;
               MainStore.StoreName := Some MainStore.MAIN_STORE |} ] |}) ].

(** A sheet of the main store without any defect, with one large
    quantity. *)
Definition large_book : workbook :=
  let batch code q :=
    {| MainStore.ItemCode := Some code; MainStore.Qty := QtyNumber q;
       MainStore.StoreName := Some MainStore.MAIN_STORE |} in
  [ ("RAW DATA"%string,
     {| columns := required;
        rows := [ batch "A"%string 10000000000000000%Q;
                  batch "B"%string 1%Q;
                  batch "B"%string 1%Q;
                  batch "C"%string (1 # 2)%Q ] |}) ].

(** With sums that round, the check of the totals can fail on a sheet
    that has lost nothing: row after row the sheet totals 1e16, group
    after group 1e16 + 2.  With exact sums the same sheet is returned. *)
Example rounded_totals_can_differ :
  (exists a b,
     create_main_store_stock_lookup Machine.rounded (Some large_book)
     = inl (Py.AssertionError (Py.Quantity_mismatch a b))
     /\ (a == 10000000000000000)%Q /\ (b == 10000000000000002)%Q)
  /\ (exists t,
        create_main_store_stock_lookup Machine.exact (Some large_book)
        = inr t
        /\ map fst t = ["A"; "B"; "C"]%string).
Proof.
  split.
  - eexists. eexists. split; [vm_compute; reflexivity|].
    split; reflexivity.
  - eexists. split; [vm_compute; reflexivity | reflexivity].
Qed.

(** C2. Whatever the sums of the run are: a table that the main store
    aggregator returns is the grouped table of the cleaned sheet, and the
    total of its quantities is within 0.01 of the total of the cleaned
    sheet; when the two totals are 0.01 or more apart the call returns no
    table: on a sheet that has its columns and a row it raises an
    assertion error, the quantity-mismatch one when no group total is
    negative; [validate] raises an assertion error on any table whose
    total is that far off; scenario 2 returns its single row with exact,
    with rounded and with wrapping sums. *)
Theorem main_store_conservation (ar : Machine.arithmetic) (sh : sheet) :
  let df := MainStore.clean (rows sh) in
  let input_total := Machine.series_sum ar (map MainStore.Quantity df) in
  let output_total := Machine.series_sum ar (map snd (aggregate ar df)) in
  (forall xl t,
     raw_sheet xl = Some sh ->
     create_main_store_stock_lookup ar (Some xl) = inr t ->
     t = Machine.groupby_sum ar MainStore.Item_Code MainStore.Quantity df
     /\ (Machine.abs_diff ar input_total (Machine.series_sum ar (map snd t))
         < 1 # 100)%Q)
  /\ (forall xl,
        raw_sheet xl = Some sh ->
        ~ (Machine.abs_diff ar input_total output_total < 1 # 100)%Q ->
        (forall t, create_main_store_stock_lookup ar (Some xl) <> inr t)
        /\ (Machine.missing_columns required (columns sh) = [] ->
            rows sh <> [] ->
            (exists m,
               create_main_store_stock_lookup ar (Some xl)
               = inl (Py.AssertionError m))
            /\ (forallb MainStore.nonneg_cell (map snd (aggregate ar df))
                = true ->
                create_main_store_stock_lookup ar (Some xl)
                = inl (Py.AssertionError
                         (Py.Quantity_mismatch input_total output_total)))))
  /\ (forall result,
        ~ (Machine.abs_diff ar input_total
             (Machine.series_sum ar (map snd result)) < 1 # 100)%Q ->
        exists m,
          validate ar input_total result = inl (Py.AssertionError m))
  /\ Forall
       (fun a =>
          create_main_store_stock_lookup a (Some scenario_2_book)
          = inr [("B7"%string, Some 7%Q)])
       [Machine.exact; Machine.rounded; Machine.wrapping].
Proof.
  intros df input_total output_total. split; [|split; [|split]].
  - intros xl t Hx. rewrite main_run_cases, Hx.
    destruct (Machine.missing_columns required (columns sh)); [|discriminate].
    destruct (Nat.eqb _ 0); [discriminate|]. cbv zeta.
    fold df. fold input_total.
    destruct (forallb MainStore.nonneg_cell _); [|discriminate].
    destruct (Py.Qltb _ _) eqn:E; [|discriminate].
    intros R. inversion R; subst t. split.
    + apply main_run_aggregate.
    + now apply Qltb_lt in E.
  - intros xl Hx Hv.
    assert (E : Py.Qltb (Machine.abs_diff ar input_total output_total)
                  (1 # 100) = false).
    { destruct (Py.Qltb _ _) eqn:E; trivial.
      apply Qltb_lt in E. contradiction. }
    rewrite main_run_cases, Hx. cbv zeta.
    fold df. fold input_total. fold output_total. rewrite E. split.
    + intros t.
      destruct (Machine.missing_columns required (columns sh));
        [|discriminate].
      destruct (Nat.eqb _ 0); [discriminate|].
      destruct (forallb MainStore.nonneg_cell _); discriminate.
    + intros Hm Hr. rewrite Hm.
      replace (Nat.eqb (List.length (rows sh)) 0) with false
        by (destruct (rows sh); [now destruct Hr | reflexivity]).
      split.
      * destruct (forallb MainStore.nonneg_cell _); eauto.
      * intros ->. reflexivity.
  - intros result Hv. unfold validate, Py.assert.
    destruct (Py.is_unique _); simpl; [|eauto].
    destruct (forallb MainStore.nonneg_cell _); simpl; [|eauto].
    destruct (forallb Py.notna _); simpl; [|eauto].
    destruct (Py.Qltb _ _) eqn:E; simpl; [|eauto].
    apply Qltb_lt in E. contradiction.
  - repeat constructor.
Qed.

End MainStoreRunFacts.


Lemma mapM_pure {A B} (f : A -> Py.outcome B) (g : A -> B) (l : list A) :
  (forall a, f a = inr (g a)) -> Py.mapM f l = inr (map g l).
Proof.
  intros H. induction l as [|a l IH]; simpl; trivial.
  now rewrite H, IH.
Qed.

(** [round0] returns a nearest integer. *)
Lemma round0_nearest (x : Q) :
  (Qabs (inject_Z (Py.round0 x) - x) <= 1 # 2)%Q.
Proof.
  unfold Py.round0.
  pose proof (Qfloor_le x) as Hlo. pose proof (Qlt_floor x) as Hhi.
  rewrite inject_Z_plus in Hhi. change (inject_Z 1) with 1%Q in Hhi.
  set (f := inject_Z (Qfloor x)) in *.
  assert (Up : (Qabs (f + 1 - x) <= 1 # 2)%Q -> 
               (Qabs (inject_Z (Qfloor x + 1) - x) <= 1 # 2)%Q).
  { intros H. rewrite inject_Z_plus. exact H. }
  destruct (Py.Qltb (x - f) (1 # 2)) eqn:E1.
  - apply Qltb_lt in E1. fold f. apply Qabs_Qle_condition. split; lra.
  - apply Qltb_ge in E1.
    assert (U : (Qabs (f + 1 - x) <= 1 # 2)%Q)
      by (apply Qabs_Qle_condition; split; lra).
    destruct (Py.Qltb (1 # 2) (x - f)) eqn:E2; [now apply Up|].
    apply Qltb_ge in E2.
    destruct (Z.even (Qfloor x)); [|now apply Up].
    fold f. apply Qabs_Qle_condition. split; lra.
Qed.

(** A tie goes to the even neighbour, on both sides of zero. *)
Example round0_ties :
  map Py.round0 [5 # 2; 7 # 2; -5 # 2; 12 # 5; 13 # 5]%Q = [2; 4; -2; 2; 3]%Z.
Proof. reflexivity. Qed.

(** ** Script 4 *)

Module InventoryCalcFacts.
Import InventoryCalc.

Open Scope Q_scope.

(** *** The formulas of the specification *)

(** The active flag of a row: [Current SKU (TRUE/FALSE)] equals [True]. *)
Definition active (m : MasterItem) : bool := eq_True (Current_SKU m).

(** [round(stock / ADC)] if ADC > 0 else 0 *)
Definition stock_days_of (stock adc : Q) : Q :=
  if Py.Qltb 0 adc then inject_Z (Py.round0 (stock / adc)) else 0.

(** 0 if not active or not reorder_needed; otherwise, with
    shortage = max_stock_level - net_stock, 0 if pack_size <= 0 or
    shortage <= 0, else ceil(shortage / pack_size) * pack_size. *)
Definition order_qty_of (is_active reorder_needed : bool)
    (max_stock_level net_stock pack_size : Q) : Q :=
  if negb is_active || negb reorder_needed then 0
  else
    let shortage := max_stock_level - net_stock in
    if Qle_bool pack_size 0 || Qle_bool shortage 0 then 0
    else inject_Z (Qceiling (shortage / pack_size)) * pack_size.

(** The row that [metrics_row] returns. *)
Definition with_metrics (r : MergedRow) : InventoryRow :=
  let m := master r in
  let net := Global_stock r + Pending_PO r in
  let reorder := active m && Py.Qltb net (Min_Stock_Level m) in
  {| merged := r;
     Net_Stock := net;
     Global_Stock_Days := stock_days_of (Global_stock r) (ADC m);
     Main_Store_Stock_Days := stock_days_of (Main_Store_Stock r) (ADC m);
     Reorder_Needed := reorder;
     Order_Qty :=
       if reorder && negb (Qle_bool (Pack_size m) 0)
          && negb (Qle_bool (Max_Stock_Level m - net) 0)
       then Py.max 0 (inject_Z (Qceiling ((Max_Stock_Level m - net) / Pack_size m))
                      * Pack_size m)
       else 0 |}.

(** *** No stage of the computation raises *)

Lemma truediv_pos (x y : Q) : 0 < y -> Py.truediv x y = inr (x / y).
Proof.
  intros H. unfold Py.truediv.
  destruct (Qeq_bool y 0) eqn:E; trivial.
  apply Qeq_bool_iff in E. rewrite E in H. now apply Qlt_irrefl in H.
Qed.

Lemma stock_days_returns (stock adc : Q) :
  stock_days stock adc = inr (stock_days_of stock adc).
Proof.
  unfold stock_days, stock_days_of, Py.Qgtb.
  destruct (Py.Qltb 0 adc) eqn:E; trivial.
  apply Qltb_lt in E. now rewrite truediv_pos.
Qed.

Lemma eq_True_truthy (c : flag_cell) : eq_True c = true -> truthy c = true.
Proof.
  destruct c as [b|q|s|]; simpl; trivial; try discriminate.
  intros H. apply Qeq_bool_iff in H.
  destruct (Qeq_bool q 0) eqn:E; trivial.
  apply Qeq_bool_iff in E. rewrite E in H. discriminate.
Qed.

Lemma metrics_row_returns (r : MergedRow) :
  metrics_row r = inr (with_metrics r).
Proof.
  unfold metrics_row, with_metrics, active. rewrite !stock_days_returns. simpl.
  unfold calc_order_qty.
  destruct (eq_True (Current_SKU (master r))) eqn:Ea; simpl.
  - rewrite (eq_True_truthy _ Ea). simpl.
    destruct (Py.Qltb _ (Min_Stock_Level (master r))); simpl; trivial.
    destruct (Qle_bool (Pack_size (master r)) 0) eqn:Ep; simpl; trivial.
    destruct (Qle_bool (Max_Stock_Level (master r)
                        - (Global_stock r + Pending_PO r)) 0) eqn:Es;
      simpl; trivial.
    rewrite truediv_pos; trivial.
    apply Qnot_le_lt. intros L. apply Qle_bool_iff in L. congruence.
  - destruct (negb (truthy _)); reflexivity.
Qed.

Lemma calculate_metrics_returns (data : list MergedRow) :
  data <> [] -> calculate_metrics data = inr (map with_metrics data).
Proof.
  intros H. unfold calculate_metrics. destruct data as [|r data].
  - now destruct H.
  - apply mapM_pure, metrics_row_returns.
Qed.

(** A table without rows makes [calculate_metrics] raise. *)
Lemma calculate_metrics_empty :
  calculate_metrics []
  = inl (Py.ValueError Py.Cannot_set_a_DataFrame_to_a_single_column).
Proof. reflexivity. Qed.

(** A table that [calculate_metrics] returns comes from a table with
    rows, row by row. *)
Lemma calculate_metrics_inr (data : list MergedRow) (df : list InventoryRow) :
  calculate_metrics data = inr df -> data <> [] /\ df = map with_metrics data.
Proof.
  destruct data as [|r data]; [discriminate|]. intros H.
  assert (N : r :: data <> []) by discriminate.
  rewrite (calculate_metrics_returns _ N) in H. split; trivial.
  now inversion H.
Qed.

Lemma map_merged_with_metrics (data : list MergedRow) :
  map merged (map with_metrics data) = data.
Proof. rewrite map_map. apply map_id. Qed.

Lemma max_0_pos (x : Q) : 0 < x -> Py.max 0 x = x.
Proof. intros H. unfold Py.max. apply Qltb_lt in H. now rewrite H. Qed.

Lemma max_0_nonneg (x : Q) : 0 <= Py.max 0 x.
Proof.
  unfold Py.max. destruct (Py.Qltb 0 x) eqn:E.
  - apply Qltb_lt in E. now apply Qlt_le_weak.
  - apply Qle_refl.
Qed.

(** A positive shortage in positive packs is a positive number of packs. *)
Lemma packs_pos (shortage pack : Q) :
  0 < pack -> 0 < shortage ->
  0 < inject_Z (Qceiling (shortage / pack)) * pack.
Proof.
  intros Hp Hs.
  assert (Hd : 0 < shortage / pack).
  { apply Qlt_shift_div_l; trivial. now rewrite Qmult_0_l. }
  pose proof (Qle_ceiling (shortage / pack)) as Hc.
  assert (Hz : 0 < inject_Z (Qceiling (shortage / pack)))
    by (eapply Qlt_le_trans; eauto).
  rewrite <- (Qmult_0_l pack). now apply Qmult_lt_compat_r.
Qed.

Lemma with_metrics_order_qty (r : MergedRow) :
  Order_Qty (with_metrics r)
  == order_qty_of (active (master r)) (Reorder_Needed (with_metrics r))
       (Max_Stock_Level (master r)) (Net_Stock (with_metrics r))
       (Pack_size (master r)).
Proof.
  unfold with_metrics, order_qty_of. simpl.
  destruct (active (master r)); simpl; [|reflexivity].
  destruct (Py.Qltb _ (Min_Stock_Level (master r))); simpl; [|reflexivity].
  destruct (Qle_bool (Pack_size (master r)) 0) eqn:Ep; simpl; [reflexivity|].
  destruct (Qle_bool (Max_Stock_Level (master r)
                      - (Global_stock r + Pending_PO r)) 0) eqn:Es;
    simpl; [reflexivity|].
  rewrite max_0_pos; [reflexivity|].
  apply packs_pos; apply Qnot_le_lt; intros L; apply Qle_bool_iff in L;
    congruence.
Qed.

Lemma with_metrics_order_qty_nonneg (r : MergedRow) :
  0 <= Order_Qty (with_metrics r).
Proof.
  unfold with_metrics. simpl.
  destruct (_ && _ && _); [apply max_0_nonneg | apply Qle_refl].
Qed.

(** *** The scenarios of the specification *)

Definition item (adc min max pack : Q) : MasterItem :=
  {| Item_Code := Some "M1"%string; Current_SKU := FlagBool true;
     ADC := adc; Min_Stock_Level := min; Max_Stock_Level := max;
     Pack_size := pack |}.

(** Scenario 3: ADC = 0, global stock 50. *)
Definition scenario_3 : MergedRow :=
  {| master := item 0 100 500 30;
     Global_stock := 50; Main_Store_Stock := 20; Pending_PO := 0 |}.

(** Scenario 4: min 100, max 500, net stock 80, packs of 30. *)
Definition scenario_4 : MergedRow :=
  {| master := item 4 100 500 30;
     Global_stock := 60; Main_Store_Stock := 20; Pending_PO := 20 |}.

(** Scenario 5: the same item with a pack size of 0. *)
Definition scenario_5 : MergedRow :=
  {| master := item 4 100 500 0;
     Global_stock := 60; Main_Store_Stock := 20; Pending_PO := 20 |}.

(** The column [col] of the table that [calculate_metrics] returns. *)
Definition column {A} (col : InventoryRow -> A) (data : list MergedRow)
  : Py.outcome (list A) :=
  Py.bind (calculate_metrics data) (fun df => Py.ret (map col df)).

(** The row [r] with another main store stock. *)
Definition set_main_store_stock (s : Q) (r : MergedRow) : MergedRow :=
  {| master := master r; Global_stock := Global_stock r;
     Main_Store_Stock := s; Pending_PO := Pending_PO r |}.

(** *** The metrics *)

(** C1. On a table with rows [calculate_metrics] returns the rows of the
    table with their metrics, and on every row the order quantity is 0 if
    the row is not active or needs no reorder, otherwise 0 if the pack
    size or the shortage is not positive, and otherwise the shortage
    rounded up to whole packs; scenario 4 gives 420 and scenario 5
    gives 0. *)
Theorem order_qty_formula (data : list MergedRow) :
  data <> [] ->
  (exists df,
     calculate_metrics data = inr df
     /\ map merged df = data
     /\ Forall
          (fun r =>
             Order_Qty r
             == order_qty_of (active (master (merged r))) (Reorder_Needed r)
                  (Max_Stock_Level (master (merged r))) (Net_Stock r)
                  (Pack_size (master (merged r))))
          df)
  /\ column Net_Stock [scenario_4; scenario_5] = inr [80; 80]
  /\ column Order_Qty [scenario_4; scenario_5] = inr [420; 0].
Proof.
  intros Hne. split; [|split; reflexivity].
  exists (map with_metrics data). split; [|split].
  - now apply calculate_metrics_returns.
  - apply map_merged_with_metrics.
  - apply Forall_forall. intros r Hr. apply in_map_iff in Hr.
    destruct Hr as [m [<- _]]. apply with_metrics_order_qty.
Qed.

Lemma order_qty_formula_witness :
  exists df,
    calculate_metrics [scenario_4; scenario_5] = inr df
    /\ map merged df = [scenario_4; scenario_5]
    /\ map Order_Qty df = [420; 0].
Proof.
  destruct (order_qty_formula [scenario_4; scenario_5]) as [[df [E [M _]]] _].
  - discriminate.
  - exists df. split; [exact E | split; [exact M|]].
    vm_compute in E. inversion E. reflexivity.
Defined.

(** C3. On a table with rows [calculate_metrics] returns the rows of the
    table with their metrics, on every row the net stock is the global
    stock plus the pending purchase orders of that row, the main store
    stock of a row has no influence on its net stock, and the
    recomputation of [validate], as the whole of [validate], succeeds on
    the table. *)
Theorem net_stock_identity (data : list MergedRow) :
  data <> [] ->
  (exists df,
     calculate_metrics data = inr df
     /\ map merged df = data
     /\ Forall
          (fun r => Net_Stock r
                    == Global_stock (merged r) + Pending_PO (merged r))
          df
     /\ net_ok df = true
     /\ validate df = inr tt)
  /\ (forall r s, exists a b,
        metrics_row r = inr a
        /\ metrics_row (set_main_store_stock s r) = inr b
        /\ merged a = r
        /\ Net_Stock a = Net_Stock b).
Proof.
  intros Hne.
  assert (Hnet : net_ok (map with_metrics data) = true).
  { unfold net_ok. apply forallb_forall. intros r Hr.
    apply in_map_iff in Hr. destruct Hr as [m [<- _]]. simpl.
    apply Qeq_bool_refl. }
  split.
  - exists (map with_metrics data).
    split; [|split; [|split; [|split]]]; trivial.
    + now apply calculate_metrics_returns.
    + apply map_merged_with_metrics.
    + apply Forall_forall. intros r Hr. apply in_map_iff in Hr.
      destruct Hr as [m [<- _]]. simpl. reflexivity.
    + unfold validate, Py.assert. rewrite Hnet. simpl.
      replace (forallb _ _) with true; trivial.
      symmetry. apply forallb_forall. intros r Hr.
      apply in_map_iff in Hr. destruct Hr as [m [<- _]].
      apply Qle_bool_iff, with_metrics_order_qty_nonneg.
  - intros r s. exists (with_metrics r), (with_metrics (set_main_store_stock s r)).
    rewrite !metrics_row_returns. auto.
Qed.

Lemma net_stock_identity_witness :
  exists df,
    calculate_metrics [scenario_3; scenario_4] = inr df
    /\ map merged df = [scenario_3; scenario_4]
    /\ map Net_Stock df = [50; 80]
    /\ validate df = inr tt.
Proof.
  destruct (net_stock_identity [scenario_3; scenario_4])
    as [[df [E [M [_ [_ V]]]]] _].
  - discriminate.
  - exists df. split; [exact E | split; [exact M | split; [|exact V]]].
    vm_compute in E. inversion E. reflexivity.
Defined.

(** C4. On a table with rows [calculate_metrics] returns the rows of the
    table with their metrics, and on every row the reorder flag is the
    conjunction of the active flag of the row and of
    net stock < minimum stock level, the net stock being the global stock
    plus the pending purchase orders of the row. *)
Theorem reorder_flag_formula (data : list MergedRow) :
  data <> [] ->
  exists df,
    calculate_metrics data = inr df
    /\ map merged df = data
    /\ Forall
         (fun r =>
            let m := master (merged r) in
            Reorder_Needed r = active m && Py.Qltb (Net_Stock r) (Min_Stock_Level m)
            /\ (Reorder_Needed r = true
                <-> active m = true /\ Net_Stock r < Min_Stock_Level m)
            /\ Net_Stock r = Global_stock (merged r) + Pending_PO (merged r))
         df.
Proof.
  intros Hne. exists (map with_metrics data). split; [|split].
  - now apply calculate_metrics_returns.
  - apply map_merged_with_metrics.
  - apply Forall_forall. intros r Hr. apply in_map_iff in Hr.
    destruct Hr as [m [<- _]]. simpl. split; [trivial | split; [|trivial]].
    now rewrite andb_true_iff, Qltb_lt.
Qed.

Lemma reorder_flag_formula_witness :
  exists df,
    calculate_metrics [scenario_3; scenario_4] = inr df
    /\ map merged df = [scenario_3; scenario_4]
    /\ map Reorder_Needed df = [true; true].
Proof.
  destruct (reorder_flag_formula [scenario_3; scenario_4]) as [df [E [M _]]].
  - discriminate.
  - exists df. split; [exact E | split; [exact M|]].
    vm_compute in E. inversion E. reflexivity.
Defined.

(** C8. On a table with rows [calculate_metrics] returns the rows of the
    table with their metrics (no division raises), and on every row each
    of the two stock-days columns is the stock of the row divided by its
    ADC and rounded when ADC > 0, and 0 otherwise; the rounded value is
    within one half of the quotient; with ADC = 0 and a global stock of
    50 the global stock days are 0. *)
Theorem stock_days_formula (data : list MergedRow) :
  data <> [] ->
  (exists df,
     calculate_metrics data = inr df
     /\ map merged df = data
     /\ Forall
          (fun r =>
             let m := merged r in
             Global_Stock_Days r = stock_days_of (Global_stock m) (ADC (master m))
             /\ Main_Store_Stock_Days r
                = stock_days_of (Main_Store_Stock m) (ADC (master m)))
          df)
  /\ (forall stock adc,
        (0 < adc ->
         exists n, stock_days_of stock adc = inject_Z n
                   /\ Qabs (inject_Z n - stock / adc) <= 1 # 2)
        /\ (adc <= 0 -> stock_days_of stock adc = 0))
  /\ column Global_Stock_Days [scenario_3; scenario_4] = inr [0; 15]
  /\ column Main_Store_Stock_Days [scenario_3; scenario_4] = inr [0; 5].
Proof.
  intros Hne. split; [|split; [|split; reflexivity]].
  - exists (map with_metrics data). split; [|split].
    + now apply calculate_metrics_returns.
    + apply map_merged_with_metrics.
    + apply Forall_forall. intros r Hr. apply in_map_iff in Hr.
      destruct Hr as [m [<- _]]. simpl. auto.
  - intros stock adc. unfold stock_days_of. split.
    + intros H. apply Qltb_lt in H. rewrite H.
      eexists. split; [reflexivity | apply round0_nearest].
    + intros H. apply Qltb_ge in H. now rewrite H.
Qed.

Lemma stock_days_formula_witness :
  exists df,
    calculate_metrics [scenario_3; scenario_4] = inr df
    /\ map merged df = [scenario_3; scenario_4]
    /\ map Global_Stock_Days df = [0; 15].
Proof.
  destruct (stock_days_formula [scenario_3; scenario_4]) as [[df [E [M _]]] _].
  - discriminate.
  - exists df. split; [exact E | split; [exact M|]].
    vm_compute in E. inversion E. reflexivity.
Defined.

(** *** The left joins *)

Lemma filter_none {A} (p : A -> bool) (l : list A) :
  (forall a, In a l -> p a = false) -> filter p l = [].
Proof.
  induction l as [|a l IH]; simpl; intros H; trivial.
  rewrite (H a) by now left. apply IH. intros b Hb. apply H. now right.
Qed.

(** In a lookup with unique keys at most one row matches a key. *)
Lemma filter_key_unique (c : string) (f : string -> option Q) (ks : list string) :
  NoDup ks ->
  filter (fun r => Py.key_eqb (Some c) (fst r)) (map (fun k => (Some k, f k)) ks)
  = if in_dec string_dec c ks then [(Some c, f c)] else [].
Proof.
  induction 1 as [|k ks Hin Hnd IH]; cbn [map filter]; trivial.
  replace (Py.key_eqb (Some c) (fst (Some k, f k))) with (String.eqb c k)
    by reflexivity.
  rewrite IH.
  destruct (in_dec string_dec c (k :: ks)) as [a|a];
    destruct (in_dec string_dec c ks) as [b|b];
    destruct (String.eqb_spec c k) as [e|n]; subst; trivial;
    try contradiction; exfalso; simpl in a; intuition congruence.
Qed.

Lemma merge_left_unique {A} (key : A -> option string) (left : list A)
    (f : string -> option Q) (ks : list string) :
  NoDup ks ->
  Py.merge_left key left (map (fun k => (Some k, f k)) ks)
  = map (fun l =>
           (l, match key l with
               | Some c => if in_dec string_dec c ks then f c else None
               | None => None
               end))
      left.
Proof.
  intros Hnd. unfold Py.merge_left.
  induction left as [|l left IH]; trivial.
  cbn [flat_map]. rewrite IH, map_cons. destruct (key l) as [c|].
  - rewrite filter_key_unique by trivial.
    destruct (in_dec string_dec c ks); reflexivity.
  - rewrite filter_none; trivial.
    intros r Hr. apply in_map_iff in Hr. now destruct Hr as [k [<- _]].
Qed.

(** A left join invents no left row. *)
Lemma merge_left_In {A} (key : A -> option string) (left : list A)
    (right : list (option string * option Q)) (x : A * option Q) :
  In x (Py.merge_left key left right) -> In (fst x) left.
Proof.
  unfold Py.merge_left. rewrite in_flat_map. intros [l [Hl Hx]].
  destruct (filter _ right) as [|r ms].
  - destruct Hx as [<-|[]]. exact Hl.
  - apply in_map_iff in Hx. now destruct Hx as [r' [<- _]].
Qed.

Lemma group_absent {A} (key : A -> option string) (c : string) (df : list A) :
  ~ In c (Py.group_keys key df) -> Py.group key c df = [].
Proof.
  intros H. apply filter_none. intros r Hr.
  destruct (Py.cell_is c (key r)) eqn:E; trivial.
  exfalso. apply H. apply group_keys_In. exists r. split; trivial.
  unfold Py.cell_is in E. destruct (key r) as [x|]; [|discriminate].
  apply String.eqb_eq in E. now subst.
Qed.

(** *** The pending purchase orders *)

(** The line is one of the designated store, and its creation date
    parses and is not before run time - 90 days. *)
Definition counted (now : Z) (r : PendingPORecord) : bool :=
  Py.cell_is MAIN_STORE (Store_Name r)
  && match to_datetime (POCreated_Date r) with
     | Some t => Z.leb (now - timedelta_days 90) t
     | None => false
     end.

(** The pending quantity of an item code: the sum over the counted lines
    of that code; 0 when there is none. *)
Definition pending_for (expected : list PendingPORecord) (now : Z)
    (code : option string) : Q :=
  match code with
  | Some c =>
      Py.sum (map Pen_Qty
                (filter (fun r => counted now r && Py.cell_is c (PO_Item_Code r))
                   expected))
  | None => 0
  end.

(** The working table with the pending quantities attached. *)
Definition with_pending (expected : list PendingPORecord) (now : Z)
    (r : MasterItem * Q * Q) : MergedRow :=
  {| master := fst (fst r);
     Global_stock := snd (fst r);
     Main_Store_Stock := snd r;
     Pending_PO := pending_for expected now (Item_Code (fst (fst r))) |}.

Lemma pending_group (expected : list PendingPORecord) (now : Z) (c : string) :
  map Pending
    (Py.group Item c
       (filter (fun r => on_or_after (now - timedelta_days 90) (Created r))
          (filter (fun r => Py.cell_is MAIN_STORE (Store r))
             (map parse_date expected))))
  = map Pen_Qty
      (filter (fun r => counted now r && Py.cell_is c (PO_Item_Code r)) expected).
Proof.
  unfold Py.group, counted.
  induction expected as [|r l IH]; simpl; trivial.
  destruct (Py.cell_is MAIN_STORE (Store_Name r)); simpl; trivial.
  unfold on_or_after at 1.
  destruct (to_datetime (POCreated_Date r)) as [t|]; simpl; trivial.
  destruct (Z.leb _ t); simpl; trivial.
  destruct (Py.cell_is c (PO_Item_Code r)); simpl; trivial.
  now rewrite IH.
Qed.

Lemma process_pending_po_returns (data : list (MasterItem * Q * Q))
    (expected : list PendingPORecord) (now : Z) :
  process_pending_po data (Some expected) now
  = inr (map (with_pending expected now) data).
Proof.
  unfold process_pending_po, pending_po, Py.ret. f_equal.
  set (exp := filter _ (filter _ (map parse_date expected))).
  unfold Py.groupby_sum. rewrite map_map. cbn [fst snd].
  rewrite (merge_left_unique _ data
             (fun k => Some (Py.sum (map Pending (Py.group Item k exp))))
             (Py.group_keys Item exp) (group_keys_NoDup Item exp)).
  rewrite map_map. apply map_ext. intros [[m g] s].
  unfold with_pending, pending_for. cbn [fst snd]. f_equal.
  destruct (Item_Code m) as [c|]; trivial.
  unfold exp. rewrite <- pending_group. fold exp.
  destruct (in_dec string_dec c (Py.group_keys Item exp)) as [i|n]; trivial.
  now rewrite (group_absent Item c exp n).
Qed.

Lemma cell_is_eq (text : string) (cell : option string) :
  Py.cell_is text cell = true <-> cell = Some text.
Proof.
  unfold Py.cell_is. destruct cell as [x|].
  - rewrite String.eqb_eq. split; congruence.
  - split; discriminate.
Qed.

Lemma counted_false_drop (now : Z) (l1 l2 : list PendingPORecord)
    (r : PendingPORecord) (code : option string) :
  counted now r = false ->
  pending_for (l1 ++ r :: l2) now code = pending_for (l1 ++ l2) now code.
Proof.
  intros H. destruct code as [c|]; simpl; trivial.
  rewrite !filter_app. simpl. now rewrite H.
Qed.

(** A run time, and the time [n] days before it. *)
Definition run_time : Z := 1793750400000000000.

Definition days_before (n : Z) : date_cell :=
  DateValue (run_time - timedelta_days n).

Definition po_line (store : string) (created : date_cell) (qty : Q)
  : PendingPORecord :=
  {| PO_Item_Code := Some "M1"%string; Store_Name := Some store;
     POCreated_Date := created; Pen_Qty := Some qty |}.

(** Scenario 6: a line of the designated store dated 95 days ago. *)
Definition scenario_6 : list PendingPORecord :=
  [ po_line MAIN_STORE (days_before 95) 40 ].

(** A feed with lines inside and outside the window. *)
Definition po_feed : list PendingPORecord :=
  [ po_line MAIN_STORE (days_before 95) 40;
    po_line MAIN_STORE (days_before 10) 20;
    po_line MAIN_STORE (DateText "soon") 7;
    po_line "Ward 3 Sub Store" (days_before 10) 9;
    po_line MAIN_STORE (days_before 90) 5 ].

(** C7. The stage keeps every row of the working table, in order, and
    gives it as pending quantity the sum of the pending quantities of the
    lines of its item code that are counted, 0 when there is none; a line
    is counted exactly when its store is the designated one and its
    creation date parses and is not before run time - 90 days; a line
    that is not counted changes nothing; a line whose date does not parse
    is not counted, nor is a line dated 95 days before the run time. *)
Theorem pending_po_merge (data : list (MasterItem * Q * Q))
    (expected : list PendingPORecord) (now : Z) :
  process_pending_po data (Some expected) now
  = inr (map (with_pending expected now) data)
  /\ (forall r,
        counted now r = true
        <-> Store_Name r = Some MAIN_STORE
            /\ exists t, to_datetime (POCreated_Date r) = Some t
                         /\ (now - timedelta_days 90 <= t)%Z)
  /\ (forall l1 r l2 code,
        expected = l1 ++ r :: l2 -> counted now r = false ->
        pending_for expected now code = pending_for (l1 ++ l2) now code)
  /\ (forall r, to_datetime (POCreated_Date r) = None -> counted now r = false)
  /\ (forall r, POCreated_Date r = DateValue (now - timedelta_days 95) ->
                counted now r = false)
  /\ map Pending_PO (map (with_pending scenario_6 run_time) [(item 4 100 500 30, 60, 20)])
     = [0]
  /\ map Pending_PO (map (with_pending po_feed run_time) [(item 4 100 500 30, 60, 20)])
     = [25].
Proof.
  split; [|split; [|split; [|split; [|split; [|split]]]]].
  - apply process_pending_po_returns.
  - intros r. unfold counted. rewrite andb_true_iff, cell_is_eq.
    destruct (to_datetime (POCreated_Date r)) as [t|].
    + rewrite Z.leb_le. split.
      * intros [Hs Ht]. eauto.
      * intros [Hs [t' [E Ht]]]. inversion E; subst. auto.
    + split; [intros [_ H]; discriminate | intros [_ [t [E _]]]; discriminate].
  - intros l1 r l2 code -> H. now apply counted_false_drop.
  - intros r H. unfold counted. rewrite H. apply andb_false_r.
  - intros r H. unfold counted. rewrite H. simpl.
    replace (Z.leb _ _) with false; [apply andb_false_r|].
    symmetry. apply Z.leb_gt. unfold timedelta_days. lia.
  - reflexivity.
  - reflexivity.
Qed.

(** *** The active flag along the pipeline *)

Lemma load_master_active (mf : option (list MasterItem)) (d : list MasterItem) :
  load_master mf = inr d -> Forall (fun m => active m = true) d.
Proof.
  unfold load_master. destruct mf as [df|]; [|discriminate].
  intros E. inversion E; subst. apply filter_Forall.
Qed.

Lemma merge_global_stock_active (d : list MasterItem) (gs : option lookup)
    (d' : list (MasterItem * Q)) :
  Forall (fun m => active m = true) d ->
  merge_global_stock d gs = inr d' ->
  Forall (fun r => active (fst r) = true) d'.
Proof.
  unfold merge_global_stock. destruct gs as [t|]; [|discriminate].
  intros Hd E. inversion E; subst. rewrite Forall_forall in *.
  intros x Hx. apply in_map_iff in Hx. destruct Hx as [y [<- Hy]]. simpl.
  apply Hd. now apply merge_left_In in Hy.
Qed.

Lemma merge_main_store_stock_active (d : list (MasterItem * Q))
    (ms : option lookup) (d' : list (MasterItem * Q * Q)) :
  Forall (fun r => active (fst r) = true) d ->
  merge_main_store_stock d ms = inr d' ->
  Forall (fun r => active (fst (fst r)) = true) d'.
Proof.
  unfold merge_main_store_stock. destruct ms as [t|]; [|discriminate].
  intros Hd E. inversion E; subst. rewrite Forall_forall in *.
  intros x Hx. apply in_map_iff in Hx. destruct Hx as [y [<- Hy]]. simpl.
  apply Hd. now apply merge_left_In in Hy.
Qed.

Lemma process_pending_po_active (d : list (MasterItem * Q * Q))
    (po : option (list PendingPORecord)) (now : Z) (d' : list MergedRow) :
  Forall (fun r => active (fst (fst r)) = true) d ->
  process_pending_po d po now = inr d' ->
  Forall (fun r => active (master r) = true) d'.
Proof.
  destruct po as [expected|]; [|discriminate].
  rewrite process_pending_po_returns.
  intros Hd E. inversion E; subst. rewrite Forall_forall in *.
  intros x Hx. apply in_map_iff in Hx. destruct Hx as [y [<- Hy]]. simpl.
  now apply Hd.
Qed.

Lemma calculate_metrics_active (d : list MergedRow) (d' : list InventoryRow) :
  Forall (fun r => active (master r) = true) d ->
  calculate_metrics d = inr d' ->
  Forall (fun r => active (master (merged r)) = true) d'.
Proof.
  intros Hd E. apply calculate_metrics_inr in E. destruct E as [_ ->].
  rewrite Forall_forall in *.
  intros x Hx. apply in_map_iff in Hx. destruct Hx as [y [<- Hy]]. simpl.
  now apply Hd.
Qed.

(** The stages of [run], one after the other. *)
Lemma run_stages (mf : option (list MasterItem)) (gs ms : option lookup)
    (po : option (list PendingPORecord)) (now : Z) (out : list InventoryRow) :
  run mf gs ms po now = inr out ->
  exists d1 d2 d3 d4,
    load_master mf = inr d1
    /\ merge_global_stock d1 gs = inr d2
    /\ merge_main_store_stock d2 ms = inr d3
    /\ process_pending_po d3 po now = inr d4
    /\ calculate_metrics d4 = inr out.
Proof.
  unfold run.
  destruct (load_master mf) as [e|d1] eqn:E1; [discriminate|]. simpl.
  destruct (merge_global_stock d1 gs) as [e|d2] eqn:E2; [discriminate|]. simpl.
  destruct (merge_main_store_stock d2 ms) as [e|d3] eqn:E3; [discriminate|].
  simpl.
  destruct (process_pending_po d3 po now) as [e|d4] eqn:E4; [discriminate|].
  simpl.
  destruct (calculate_metrics d4) as [e|d5] eqn:E5; [discriminate|]. simpl.
  destruct (validate d5) as [e|u]; [discriminate|]. simpl.
  intros E. inversion E; subst. exists d1, d2, d3, d4. auto.
Qed.

(** A catalog with an inactive item, an item whose flag is the number 1,
    an item whose flag is a text, and two lookups. *)
Definition catalog : list MasterItem :=
  [ item 4 100 500 30;
    {| Item_Code := Some "M2"%string; Current_SKU := FlagBool false;
       ADC := 1; Min_Stock_Level := 10; Max_Stock_Level := 50; Pack_size := 5 |};
    {| Item_Code := Some "M3"%string; Current_SKU := FlagNumber 1;
       ADC := 2; Min_Stock_Level := 10; Max_Stock_Level := 50; Pack_size := 5 |};
    {| Item_Code := Some "M4"%string; Current_SKU := FlagText "TRUE";
       ADC := 2; Min_Stock_Level := 10; Max_Stock_Level := 50; Pack_size := 5 |} ].

Definition global_lookup : lookup :=
  [ (Some "M1", Some 60); (Some "M2", Some 3); (Some "M3", Some 70) ]%string.

Definition main_lookup : lookup := [ (Some "M1", Some 20) ]%string.

(** C9. In a run that returns, the table that [load_master] leaves has
    the active flag true on every row, and so has the table after each of
    the later stages, the returned one included; on every returned row
    the flag is also true as a truth value, so the reorder flag is
    net stock < minimum stock level and the order quantity is the one of
    an active row. *)
Theorem active_flag_invariant (mf : option (list MasterItem))
    (gs ms : option lookup) (po : option (list PendingPORecord)) (now : Z)
    (out : list InventoryRow) :
  run mf gs ms po now = inr out ->
  (exists d1 d2 d3 d4,
     load_master mf = inr d1
     /\ Forall (fun m => active m = true) d1
     /\ merge_global_stock d1 gs = inr d2
     /\ Forall (fun r => active (fst r) = true) d2
     /\ merge_main_store_stock d2 ms = inr d3
     /\ Forall (fun r => active (fst (fst r)) = true) d3
     /\ process_pending_po d3 po now = inr d4
     /\ Forall (fun r => active (master r) = true) d4
     /\ calculate_metrics d4 = inr out)
  /\ Forall
       (fun r =>
          let m := master (merged r) in
          active m = true
          /\ truthy (Current_SKU m) = true
          /\ Reorder_Needed r = Py.Qltb (Net_Stock r) (Min_Stock_Level m)
          /\ Order_Qty r
             == order_qty_of true (Reorder_Needed r) (Max_Stock_Level m)
                  (Net_Stock r) (Pack_size m))
       out.
Proof.
  intros H. apply run_stages in H.
  destruct H as [d1 [d2 [d3 [d4 [H1 [H2 [H3 [H4 H5]]]]]]]].
  pose proof (load_master_active _ _ H1) as A1.
  pose proof (merge_global_stock_active _ _ _ A1 H2) as A2.
  pose proof (merge_main_store_stock_active _ _ _ A2 H3) as A3.
  pose proof (process_pending_po_active _ _ _ _ A3 H4) as A4.
  pose proof (calculate_metrics_active _ _ A4 H5) as A5.
  split.
  - exists d1, d2, d3, d4. repeat (split; trivial).
  - apply calculate_metrics_inr in H5. destruct H5 as [_ ->].
    rewrite Forall_forall in *. intros r Hr. specialize (A5 r Hr).
    apply in_map_iff in Hr. destruct Hr as [x [<- Hx]].
    cbv zeta. split; [exact A5 | split; [now apply eq_True_truthy | split]].
    + simpl in *. now rewrite A5.
    + rewrite with_metrics_order_qty. simpl in A5. rewrite A5. reflexivity.
Qed.

Lemma active_flag_invariant_witness :
  exists out,
    run (Some catalog) (Some global_lookup) (Some main_lookup) (Some po_feed)
      run_time = inr out
    /\ map Order_Qty out = [420; 0]
    /\ Forall (fun r => active (master (merged r)) = true) out.
Proof.
  eexists. split; [reflexivity|]. split; [reflexivity|].
  pose proof (active_flag_invariant (Some catalog) (Some global_lookup)
                (Some main_lookup) (Some po_feed) run_time _ eq_refl) as H.
  destruct H as [_ H]. rewrite Forall_forall in *.
  intros r Hr. now apply (H r Hr).
Defined.

End InventoryCalcFacts.

(** * Further properties of the three scripts *)

Lemma length_zero_iff {A} (l : list A) :
  Nat.eqb (List.length l) 0 = true <-> l = [].
Proof. destruct l; simpl; split; congruence. Qed.

Lemma Permutation_filter_bool {A} (p : A -> bool) (l l' : list A) :
  Permutation l l' -> Permutation (filter p l) (filter p l').
Proof.
  induction 1 as [|a l l' H IH|a b l|l1 l2 l3 H1 IH1 H2 IH2]; simpl.
  - constructor.
  - destruct (p a); auto.
  - destruct (p a), (p b); auto. apply perm_swap.
  - now transitivity (filter p l2).
Qed.

(** Two strictly increasing lists with the same members are equal. *)
Lemma ascending_unique (l1 l2 : list string) :
  ascending l1 -> ascending l2 -> (forall x, In x l1 <-> In x l2) -> l1 = l2.
Proof.
  unfold ascending. intros H1. revert l2.
  induction H1 as [|a l1 Hs1 IH Ha]; intros l2 H2 Hin.
  - destruct l2 as [|b l2]; trivial.
    exfalso. apply (proj2 (Hin b)). now left.
  - destruct H2 as [|b l2 Hs2 Hb].
    + exfalso. apply (proj1 (Hin a)). now left.
    + rewrite Forall_forall in Ha, Hb.
      assert (E : a = b).
      { destruct (proj1 (Hin a) (or_introl eq_refl)) as [e|Hal2]; [auto|].
        destruct (proj2 (Hin b) (or_introl eq_refl)) as [e|Hbl1]; [auto|].
        pose proof (ltb_trans _ _ _ (Ha b Hbl1) (Hb a Hal2)) as F.
        now rewrite ltb_irrefl in F. }
      subst b. f_equal. apply IH; trivial.
      intros x. split; intros Hx.
      * destruct (proj1 (Hin x) (or_intror Hx)) as [e|h]; trivial.
        subst x. specialize (Ha a Hx). now rewrite ltb_irrefl in Ha.
      * destruct (proj2 (Hin x) (or_intror Hx)) as [e|h]; trivial.
        subst x. specialize (Hb a Hx). now rewrite ltb_irrefl in Hb.
Qed.

(** The keys of the grouped table do not depend on the order of the
    rows. *)
Lemma group_keys_Permutation {A} (key : A -> option string)
    (df df' : list A) :
  Permutation df df' -> Py.group_keys key df = Py.group_keys key df'.
Proof.
  intros P. apply ascending_unique; try apply group_keys_ascending.
  intros k. rewrite !group_keys_In. split; intros [r [Hr E]]; exists r;
    split; trivial.
  - now apply (Permutation_in _ P).
  - now apply (Permutation_in _ (Permutation_sym P)).
Qed.

(** ** Script 1: outcomes *)

Module GlobalStockOutcomes.
Import GlobalStock GlobalStockFacts.




Lemma existsb_eqb_In (x : string) (l : list string) :
  existsb (String.eqb x) l = true <-> In x l.
Proof.
  rewrite existsb_exists. split.
  - intros [y [Hy E]]. apply String.eqb_eq in E. now subst.
  - intros H. exists x. split; trivial. apply String.eqb_refl.
Qed.

Lemma forallb_nonneg (col : list (option Q)) :
  forallb nonneg_cell col = true
  <-> Forall (fun v => exists q, v = Some q /\ (0 <= q)%Q) col.
Proof.
  rewrite forallb_forall, Forall_forall.
  split; intros H v Hv; apply nonneg_cell_spec; auto.
Qed.



End GlobalStockOutcomes.

(** ** Script 1 on the numbers of the machine: outcomes *)

Module GlobalStockRunOutcomes.
Import GlobalStockRun.

Lemma global_run_aggregate (ar : Machine.arithmetic)
    (df : list GlobalStock.StockRecord) :
  aggregate ar df
  = Machine.groupby_sum ar GlobalStock.Item_Code GlobalStock.Quantity df.
Proof. unfold aggregate. apply machine_groupby_sorted. Qed.

(** The call, case by case. *)
Lemma global_run_cases (ar : Machine.arithmetic) (f : table) :
  create_global_stock_lookup ar (Some f)
  = match Machine.missing_columns required_cols (columns f) with
    | _ :: _ =>
        inl (Py.ValueError
               (Py.Input_file_missing_columns
                  (Machine.missing_columns required_cols (columns f))))
    | [] =>
        let t := aggregate ar (GlobalStock.clean (rows f)) in
        if Nat.eqb (List.length (rows f)) 0
        then inl (Py.ValueError Py.Input_file_is_empty)
        else if Nat.eqb (List.length (GlobalStock.clean (rows f))) 0
        then inl (Py.ValueError Py.All_rows_were_filtered_out)
        else if existsb (String.eqb "Intransit Store") (map fst t)
        then inl (Py.AssertionError Py.Intransit_Store_should_be_removed)
        else if forallb GlobalStock.nonneg_cell (map snd t)
        then inr t
        else inl (Py.AssertionError Py.Negative_quantities_found)
    end.
Proof.
  unfold create_global_stock_lookup.
  destruct (Machine.missing_columns required_cols (columns f)); trivial.
  cbv zeta.
  destruct (Nat.eqb (List.length (rows f)) 0); trivial.
  destruct (Nat.eqb (List.length (GlobalStock.clean (rows f))) 0); trivial.
  unfold GlobalStock.validate, Py.assert.
  rewrite global_run_aggregate, machine_groupby_unique, machine_groupby_notna.
  destruct (existsb _ _); simpl; trivial.
  destruct (forallb GlobalStock.nonneg_cell _); reflexivity.
Qed.

(** On exact arithmetic, and when the table has the required columns,
    the call is that of [GlobalStock]. *)
Lemma global_run_exact (f : table) :
  Machine.missing_columns required_cols (columns f) = [] ->
  create_global_stock_lookup Machine.exact (Some f)
  = GlobalStock.create_global_stock_lookup (Some (rows f)).
Proof.
  intros H. unfold create_global_stock_lookup. rewrite H. reflexivity.
Qed.

(** X1. Whatever the sums of the run are, the aggregator returns exactly
    when the file exists, its table has the three required columns, a
    row survives the cleaning, no surviving row has the item code
    "Intransit Store" and no group total is negative; what it then
    returns is the grouped table.  When it raises, it raises one of six
    errors, the missing columns being those that the header lacks, and
    never the assertion on duplicates or on null quantities. *)
Theorem global_stock_outcome (ar : Machine.arithmetic) (input : option table) :
  (forall t,
     create_global_stock_lookup ar input = inr t
     <-> exists f,
           input = Some f
           /\ Machine.missing_columns required_cols (columns f) = []
           /\ GlobalStock.clean (rows f) <> []
           /\ t = Machine.groupby_sum ar GlobalStock.Item_Code
                    GlobalStock.Quantity (GlobalStock.clean (rows f))
           /\ ~ In "Intransit Store"%string (map fst t)
           /\ Forall (fun v => exists q, v = Some q /\ (0 <= q)%Q) (map snd t))
  /\ (forall e,
        create_global_stock_lookup ar input = inl e ->
        e = Py.FileNotFoundError
        \/ (exists f,
              input = Some f
              /\ Machine.missing_columns required_cols (columns f) <> []
              /\ e = Py.ValueError
                       (Py.Input_file_missing_columns
                          (Machine.missing_columns required_cols (columns f))))
        \/ e = Py.ValueError Py.Input_file_is_empty
        \/ e = Py.ValueError Py.All_rows_were_filtered_out
        \/ e = Py.AssertionError Py.Intransit_Store_should_be_removed
        \/ e = Py.AssertionError Py.Negative_quantities_found).
Proof.
  destruct input as [f|].
  2:{ split.
      - intros t. split; [discriminate | intros [f [E _]]; discriminate].
      - intros e E. inversion E. auto. }
  rewrite global_run_cases, global_run_aggregate.
  destruct (Machine.missing_columns required_cols (columns f)) as [|c cs] eqn:Em.
  2:{ split.
      - intros t. split; [discriminate|].
        intros [f' [E [Hm _]]]. inversion E; subst f'. congruence.
      - intros e E. inversion E. right. left. exists f. rewrite Em.
        repeat split. discriminate. }
  cbv zeta.
  destruct (Nat.eqb (List.length (rows f)) 0) eqn:E0.
  { apply length_zero_iff in E0. split.
    - intros t. split; [discriminate|].
      intros [f' [E [_ [Hc _]]]]. inversion E; subst f'.
      rewrite E0 in Hc. now destruct Hc.
    - intros e E. inversion E. auto. }
  destruct (Nat.eqb (List.length (GlobalStock.clean (rows f))) 0) eqn:E1.
  { apply length_zero_iff in E1. split.
    - intros t. split; [discriminate|].
      intros [f' [E [_ [Hc _]]]]. inversion E; subst f'. contradiction.
    - intros e E. inversion E. auto 6. }
  assert (Hc : GlobalStock.clean (rows f) <> []).
  { intros H. apply length_zero_iff in H. congruence. }
  destruct (existsb _ _) eqn:E2.
  { apply GlobalStockOutcomes.existsb_eqb_In in E2. split.
    - intros t. split; [discriminate|].
      intros [f' [E [_ [_ [-> [Hn _]]]]]]. inversion E; subst f'.
      contradiction.
    - intros e E. inversion E. auto 7. }
  assert (Hn : ~ In "Intransit Store"%string
                 (map fst (Machine.groupby_sum ar GlobalStock.Item_Code
                             GlobalStock.Quantity
                             (GlobalStock.clean (rows f))))).
  { intros H. apply GlobalStockOutcomes.existsb_eqb_In in H. congruence. }
  destruct (forallb GlobalStock.nonneg_cell _) eqn:E3.
  - apply GlobalStockOutcomes.forallb_nonneg in E3. split.
    + intros t. split.
      * intros E. inversion E; subst t. exists f. auto 7.
      * intros [f' [E [_ [_ [-> _]]]]]. now inversion E.
    + discriminate.
  - split.
    + intros t. split; [discriminate|].
      intros [f' [E [_ [_ [-> [_ Hp]]]]]]. inversion E; subst f'.
      apply GlobalStockOutcomes.forallb_nonneg in Hp. congruence.
    + intros e E. inversion E. auto 7.
Qed.

(** X4. The order of the rows of the report has no influence on the item
    codes of the table, nor on any error other than the assertion on
    negative quantities: two reports with the same header and the same
    rows in another order give tables with the same item codes, and each
    raises a given error other than that assertion exactly when the other
    raises it.  The totals are sums of the run and may depend on the
    order. *)
Theorem global_stock_order_independent (ar : Machine.arithmetic)
    (f f' : table) :
  columns f = columns f' ->
  Permutation (rows f) (rows f') ->
  map fst (aggregate ar (GlobalStock.clean (rows f)))
  = map fst (aggregate ar (GlobalStock.clean (rows f')))
  /\ (forall e,
        e <> Py.AssertionError Py.Negative_quantities_found ->
        (create_global_stock_lookup ar (Some f) = inl e
         <-> create_global_stock_lookup ar (Some f') = inl e)).
Proof.
  intros Hc P.
  assert (Pc : Permutation (GlobalStock.clean (rows f))
                 (GlobalStock.clean (rows f'))).
  { rewrite !GlobalStockFacts.clean_filter. apply Permutation_map.
    now apply Permutation_filter_bool. }
  assert (K : map fst (aggregate ar (GlobalStock.clean (rows f)))
              = map fst (aggregate ar (GlobalStock.clean (rows f')))).
  { rewrite !global_run_aggregate, !machine_groupby_keys.
    now apply group_keys_Permutation. }
  split; trivial.
  intros e He.
  assert (L : List.length (rows f) = List.length (rows f'))
    by now apply Permutation_length.
  assert (Lc : List.length (GlobalStock.clean (rows f))
               = List.length (GlobalStock.clean (rows f')))
    by now apply Permutation_length.
  rewrite !global_run_cases. cbv zeta. rewrite <- Hc, <- L, <- Lc, <- K.
  destruct (Machine.missing_columns required_cols (columns f)); [|tauto].
  destruct (Nat.eqb (List.length (rows f)) 0); [tauto|].
  destruct (Nat.eqb (List.length (GlobalStock.clean (rows f))) 0); [tauto|].
  destruct (existsb _ _); [tauto|].
  destruct (forallb GlobalStock.nonneg_cell
              (map snd (aggregate ar (GlobalStock.clean (rows f)))));
    destruct (forallb GlobalStock.nonneg_cell
                (map snd (aggregate ar (GlobalStock.clean (rows f')))));
    split; intros E; try discriminate; inversion E; subst e;
    now destruct He.
Qed.

(** With sums that round, the order of the rows decides whether the
    assertion on negative quantities fails: the same four rows total
    -0.5 in one order and 0.5 in another. *)
Example rounded_total_depends_on_order :
  let report qs :=
    {| columns := required_cols;
       rows :=
         map (fun q => {| GlobalStock.ItemCode := Some "A"%string;
                          GlobalStock.Description := Some "Widget"%string;
                          GlobalStock.Qty := QtyNumber q |}) qs |} in
  let big := 10000000000000000%Q in
  create_global_stock_lookup Machine.rounded
    (Some (report [big; 1; - big; - (1 # 2)]%Q))
  = inl (Py.AssertionError Py.Negative_quantities_found)
  /\ create_global_stock_lookup Machine.rounded
       (Some (report [big; - big; 1; - (1 # 2)]%Q))
     = inr [("A"%string, Some (1 # 2)%Q)].
Proof. split; vm_compute; reflexivity. Qed.

(** With sums that wrap around, two quantities that are not negative can
    fail the assertion on negative quantities. *)
Example wrapped_total_is_negative :
  let report qs :=
    {| columns := required_cols;
       rows :=
         map (fun q => {| GlobalStock.ItemCode := Some "A"%string;
                          GlobalStock.Description := Some "Widget"%string;
                          GlobalStock.Qty := QtyNumber q |}) qs |} in
  create_global_stock_lookup Machine.wrapping
    (Some (report [9223372036854775807; 1]%Q))
  = inl (Py.AssertionError Py.Negative_quantities_found)
  /\ create_global_stock_lookup Machine.wrapping
       (Some (report [9223372036854775806; 1]%Q))
     = inr [("A"%string, Some 9223372036854775807%Q)].
Proof. split; vm_compute; reflexivity. Qed.

Lemma global_stock_order_independent_witness :
  map fst
    (aggregate Machine.exact (GlobalStock.clean GlobalStockFacts.scenario_1))
  = map fst
      (aggregate Machine.exact
         (GlobalStock.clean (rev GlobalStockFacts.scenario_1))).
Proof.
  apply (global_stock_order_independent Machine.exact
           {| columns := required_cols;
              rows := GlobalStockFacts.scenario_1 |}
           {| columns := required_cols;
              rows := rev GlobalStockFacts.scenario_1 |}).
  - reflexivity.
  - apply Permutation_rev.
Defined.

End GlobalStockRunOutcomes.


Lemma filter_filter {A} (f g : A -> bool) (l : list A) :
  filter f (filter g l) = filter (fun x => g x && f x) l.
Proof.
  induction l as [|a l IH]; simpl; trivial.
  destruct (g a); simpl; [destruct (f a)|]; now rewrite IH.
Qed.

Lemma filter_map_swap {A B} (f : A -> B) (p : B -> bool) (l : list A) :
  filter p (map f l) = map f (filter (fun a => p (f a)) l).
Proof.
  induction l as [|a l IH]; simpl; trivial.
  destruct (p (f a)); simpl; now rewrite IH.
Qed.

(** ** Script 2: outcomes *)

Module MainStoreOutcomes.
Import MainStore MainStoreFacts.

(** A row is kept by the quality checks: it is of the main store, has an
    item code, and its quantity is a number. *)
Definition keep (r : RawBatchRecord) : bool :=
  in_main_store r && (Py.notna (ItemCode r) && Py.notna (to_numeric (Qty r))).

Lemma count_all {A} (p : A -> bool) (l : list A) :
  count p l = List.length l -> filter p l = l.
Proof.
  unfold count. intros H. apply forallb_filter_id.
  now apply filter_length_forallb.
Qed.

Lemma clean_keep (df : list RawBatchRecord) :
  clean df = map convert_qty (filter keep df).
Proof.
  unfold clean.
  assert (E1 : (if negb (Nat.eqb (count in_main_store df) (List.length df))
                then filter in_main_store df else df)
               = filter in_main_store df).
  { destruct (Nat.eqb_spec (count in_main_store df) (List.length df)) as [e|n];
      simpl; trivial. symmetry. now apply count_all. }
  rewrite E1. clear E1. set (df1 := filter in_main_store df).
  assert (E2 : (if Nat.ltb 0 (count (fun r => Py.isna (ItemCode r)) df1)
                   || Nat.ltb 0 (count (fun r => negb (qty_notna (Qty r))) df1)
                then filter (fun r => Py.notna (ItemCode r) && qty_notna (Qty r)) df1
                else df1)
               = filter (fun r => Py.notna (ItemCode r) && qty_notna (Qty r)) df1).
  { destruct (_ || _) eqn:E; trivial.
    apply orb_false_iff in E. destruct E as [Ea Eb].
    apply Nat.ltb_ge in Ea, Eb.
    assert (Za : count (fun r => Py.isna (ItemCode r)) df1 = 0%nat) by lia.
    assert (Zb : count (fun r => negb (qty_notna (Qty r))) df1 = 0%nat) by lia.
    apply count_zero in Za, Zb. rewrite Forall_forall in Za, Zb.
    symmetry. apply forallb_filter_id, forallb_forall. intros r Hr.
    specialize (Za r Hr). specialize (Zb r Hr). unfold Py.isna in Za.
    apply negb_false_iff in Za, Zb. now rewrite Za, Zb. }
  rewrite E2. clear E2. unfold df1.
  rewrite filter_map_swap, !filter_filter. f_equal.
  apply filter_ext. intros r. unfold keep. simpl.
  destruct (in_main_store r), (ItemCode r), (Qty r); reflexivity.
Qed.

(** X5. The quality checks of the main store script filter only when a
    count shows a defect, and the result is the same as filtering always:
    the cleaned table holds, in order, exactly the rows of the main store
    that have an item code and a numeric quantity, each with its number. *)
Theorem main_store_clean_is_filter (df : list RawBatchRecord) :
  clean df = map convert_qty (filter keep df)
  /\ Forall
       (fun r => Store_Name r = Some MAIN_STORE
                 /\ (exists c, Item_Code r = Some c)
                 /\ (exists q, Quantity r = Some q))
       (clean df).
Proof.
  split; [apply clean_keep|].
  rewrite clean_keep. apply Forall_forall. intros x Hx.
  apply in_map_iff in Hx. destruct Hx as [r [<- Hr]].
  apply filter_In in Hr. destruct Hr as [_ Hk]. unfold keep in Hk.
  apply andb_true_iff in Hk. destruct Hk as [Hs Hk].
  apply andb_true_iff in Hk. destruct Hk as [Hi Hq]. simpl.
  split; [now apply InventoryCalcFacts.cell_is_eq|].
  split.
  - destruct (ItemCode r) as [c|]; [eauto | discriminate].
  - destruct (to_numeric (Qty r)) as [q|]; [eauto | discriminate].
Qed.

Lemma main_aggregate_is_unique (df : list BatchRecord) :
  Py.is_unique (map fst (aggregate df)) = true.
Proof.
  rewrite main_aggregate_groupby, groupby_sum_keys.
  apply is_unique_NoDup, group_keys_NoDup.
Qed.

Lemma main_aggregate_notna (df : list BatchRecord) :
  forallb Py.notna (map snd (aggregate df)) = true.
Proof.
  rewrite main_aggregate_groupby, groupby_sum_values.
  apply forallb_forall. intros v Hv. apply in_map_iff in Hv.
  now destruct Hv as [k [<- _]].
Qed.

(** On a cleaned table the conservation check holds. *)
Lemma conservation_check_holds (raw : list RawBatchRecord) :
  Py.Qltb
    (Py.abs (Py.sum (map Quantity (clean raw))
             - Py.sum (map snd (aggregate (clean raw)))))
    (1 # 100) = true.
Proof.
  apply Qltb_lt. unfold Py.abs.
  assert (E : (Py.sum (map Quantity (clean raw))
               - Py.sum (map snd (aggregate (clean raw))) == 0)%Q).
  { rewrite aggregate_conserves. ring. }
  rewrite E. reflexivity.
Qed.

(** The call, case by case. *)
Lemma main_create_cases (xl : workbook) :
  create_main_store_stock_lookup (Some xl)
  = match raw_sheet xl with
    | None => inl (Py.ValueError Py.No_RAW_DATA_sheet_found)
    | Some df =>
        if Nat.eqb (List.length df) 0
        then inl (Py.ValueError Py.Input_sheet_is_empty)
        else if forallb nonneg_cell (map snd (aggregate (clean df)))
        then inr (aggregate (clean df))
        else inl (Py.AssertionError Py.Negative_quantities_found)
    end.
Proof.
  unfold create_main_store_stock_lookup.
  destruct (raw_sheet xl) as [df|]; trivial.
  destruct (Nat.eqb (List.length df) 0); trivial.
  unfold aggregate_and_validate, validate, Py.assert.
  rewrite main_aggregate_is_unique, main_aggregate_notna. cbn [Py.bind].
  destruct (forallb nonneg_cell _); cbn [Py.bind]; trivial.
  now rewrite conservation_check_holds.
Qed.

Lemma main_forallb_nonneg (col : list (option Q)) :
  forallb nonneg_cell col = true
  <-> Forall (fun v => exists q, v = Some q /\ (0 <= q)%Q) col.
Proof.
  rewrite forallb_forall, Forall_forall.
  unfold nonneg_cell, Py.Qgeb.
  split; intros H v Hv; specialize (H v Hv).
  - destruct v as [q|]; [|discriminate]. apply Qle_bool_iff in H. eauto.
  - destruct H as [q [-> H]]. now apply Qle_bool_iff.
Qed.

(** X7. When the RAW DATA sheet has rows but the quality checks keep none
    of them, the main store aggregator does not raise: it returns the
    empty table. *)
Theorem main_store_nothing_kept (xl : workbook) (raw : list RawBatchRecord) :
  raw_sheet xl = Some raw -> raw <> [] ->
  Forall (fun r => keep r = false) raw ->
  create_main_store_stock_lookup (Some xl) = inr [].
Proof.
  intros Er Hn Hk. rewrite main_create_cases, Er.
  replace (Nat.eqb (List.length raw) 0) with false.
  - rewrite clean_keep.
    rewrite InventoryCalcFacts.filter_none; [reflexivity|].
    now apply Forall_forall.
  - symmetry. destruct (Nat.eqb _ 0) eqn:E; trivial.
    apply length_zero_iff in E. contradiction.
Qed.

(** A workbook whose only batch is held by another store. *)
Definition foreign_workbook : workbook :=
  [ ("Raw Data",
     [ {| ItemCode := Some "B7"; Qty := QtyNumber 4;
          StoreName := Some "Ward 3 Sub Store" |} ]) ]%string.

Lemma main_store_nothing_kept_witness :
  create_main_store_stock_lookup (Some foreign_workbook) = inr [].
Proof.
  eapply main_store_nothing_kept.
  - reflexivity.
  - discriminate.
  - repeat constructor.
Defined.

(** The sheet name holds "raw", whatever the case of its letters. *)
Definition is_raw (name : string) : bool := Py.contains "raw" (Py.lower name).

(** X8. The sheet that is read is the first one whose name holds "raw" in
    any case, whatever sheets follow it; a workbook without such a sheet
    makes the call raise the value error on the missing RAW DATA sheet. *)
Theorem raw_sheet_first_match (pre post : workbook) (name : string)
    (rows : list RawBatchRecord) :
  Forall (fun s => is_raw (fst s) = false) pre ->
  (is_raw name = true -> raw_sheet (pre ++ (name, rows) :: post) = Some rows)
  /\ create_main_store_stock_lookup (Some pre)
     = inl (Py.ValueError Py.No_RAW_DATA_sheet_found).
Proof.
  intros Hpre.
  assert (Hf : forall l, find (fun s : string * list RawBatchRecord =>
                                 Py.contains "raw" (Py.lower (fst s))) (pre ++ l)
                         = find (fun s => Py.contains "raw" (Py.lower (fst s))) l).
  { induction Hpre as [|s pre Hs Hp IH]; intros l; simpl; trivial.
    unfold is_raw in Hs. now rewrite Hs. }
  split.
  - intros Hn. unfold raw_sheet. rewrite Hf. simpl.
    unfold is_raw in Hn. now rewrite Hn.
  - rewrite main_create_cases. unfold raw_sheet.
    rewrite <- (app_nil_r pre), Hf. reflexivity.
Qed.

Lemma raw_sheet_first_match_witness :
  raw_sheet ([("Summary"%string, [])] ++ ("RAW DATA"%string, []) :: foreign_workbook)
  = Some [].
Proof.
  apply (raw_sheet_first_match [("Summary"%string, [])] foreign_workbook
           "RAW DATA" []).
  - repeat constructor.
  - reflexivity.
Defined.




End MainStoreOutcomes.

(** ** Script 2 on the numbers of the machine: outcomes *)

Module MainStoreRunOutcomes.
Import MainStoreRun MainStoreRunFacts.

(** X6. Whatever the sums of the run are, the main store aggregator
    returns exactly when the workbook exists, has a RAW DATA sheet with
    the three required columns and at least one row, no group total of
    the cleaned sheet is negative, and the total of the group totals is
    within 0.01 of the total of the cleaned sheet; it then returns the
    grouped table.  When it raises, it raises one of six errors, the
    missing columns being those that the header lacks, and never the
    assertion on duplicates or on null quantities. *)
Theorem main_store_outcome (ar : Machine.arithmetic)
    (input : option workbook) :
  (forall t,
     create_main_store_stock_lookup ar input = inr t
     <-> exists xl sh,
           input = Some xl /\ raw_sheet xl = Some sh
           /\ Machine.missing_columns required (columns sh) = []
           /\ rows sh <> []
           /\ t = Machine.groupby_sum ar MainStore.Item_Code
                    MainStore.Quantity (MainStore.clean (rows sh))
           /\ Forall (fun v => exists q, v = Some q /\ (0 <= q)%Q) (map snd t)
           /\ (Machine.abs_diff ar
                 (Machine.series_sum ar
                    (map MainStore.Quantity (MainStore.clean (rows sh))))
                 (Machine.series_sum ar (map snd t)) < 1 # 100)%Q)
  /\ (forall e,
        create_main_store_stock_lookup ar input = inl e ->
        e = Py.FileNotFoundError
        \/ e = Py.ValueError Py.No_RAW_DATA_sheet_found
        \/ (exists xl sh,
              input = Some xl /\ raw_sheet xl = Some sh
              /\ Machine.missing_columns required (columns sh) <> []
              /\ e = Py.ValueError
                       (Py.Missing_columns
                          (Machine.missing_columns required (columns sh))))
        \/ e = Py.ValueError Py.Input_sheet_is_empty
        \/ e = Py.AssertionError Py.Negative_quantities_found
        \/ (exists xl sh,
              input = Some xl /\ raw_sheet xl = Some sh
              /\ e = Py.AssertionError
                       (Py.Quantity_mismatch
                          (Machine.series_sum ar
                             (map MainStore.Quantity
                                (MainStore.clean (rows sh))))
                          (Machine.series_sum ar
                             (map snd
                                (aggregate ar
                                   (MainStore.clean (rows sh)))))))).
Proof.
  destruct input as [xl|].
  2:{ split.
      - intros t. split; [discriminate | intros [xl [sh [E _]]]; discriminate].
      - intros e E. inversion E. auto. }
  rewrite main_run_cases.
  destruct (raw_sheet xl) as [sh|] eqn:Er.
  2:{ split.
      - intros t. split; [discriminate|].
        intros [xl' [sh [E [E' _]]]]. inversion E; subst. congruence.
      - intros e E. inversion E. auto. }
  assert (S : forall (P : sheet -> Prop),
            (exists xl' sh', Some xl = Some xl' /\ raw_sheet xl' = Some sh'
                             /\ P sh') -> P sh).
  { intros P [xl' [sh' [E [E' H]]]]. inversion E; subst xl'.
    rewrite Er in E'. now inversion E'; subst sh'. }
  destruct (Machine.missing_columns required (columns sh)) as [|c cs] eqn:Em.
  2:{ split.
      - intros t. split; [discriminate|]. intros H.
        apply (S (fun sh' => Machine.missing_columns required (columns sh') = []
                             /\ _)) in H.
        destruct H as [H _]. congruence.
      - intros e E. inversion E. right. right. left. exists xl, sh.
        rewrite Em. repeat split; trivial. discriminate. }
  destruct (Nat.eqb (List.length (rows sh)) 0) eqn:E0.
  { apply length_zero_iff in E0. split.
    - intros t. split; [discriminate|]. intros H.
      apply (S (fun sh' => _ /\ rows sh' <> [] /\ _)) in H.
      destruct H as [_ [H _]]. contradiction.
    - intros e E. inversion E. auto 6. }
  assert (Hn : rows sh <> []).
  { intros H. apply length_zero_iff in H. congruence. }
  cbv zeta. rewrite main_run_aggregate.
  destruct (forallb MainStore.nonneg_cell _) eqn:E3.
  2:{ split.
      - intros t. split; [discriminate|]. intros H.
        apply (S (fun sh' =>
                    _ /\ _ /\ t = Machine.groupby_sum ar MainStore.Item_Code
                                    MainStore.Quantity
                                    (MainStore.clean (rows sh'))
                    /\ Forall _ (map snd t) /\ _)) in H.
        destruct H as [_ [_ [-> [Hp _]]]].
        apply MainStoreOutcomes.main_forallb_nonneg in Hp. congruence.
      - intros e E. inversion E. auto 7. }
  apply MainStoreOutcomes.main_forallb_nonneg in E3.
  destruct (Py.Qltb _ _) eqn:E4.
  - apply Qltb_lt in E4. split; [|discriminate].
    intros t. split.
    + intros E. inversion E; subst t. exists xl, sh. auto 8.
    + intros H.
      apply (S (fun sh' =>
                  _ /\ _ /\ t = Machine.groupby_sum ar MainStore.Item_Code
                                  MainStore.Quantity
                                  (MainStore.clean (rows sh')) /\ _)) in H.
      destruct H as [_ [_ [-> _]]]. reflexivity.
  - split.
    + intros t. split; [discriminate|]. intros H.
      apply (S (fun sh' =>
                  _ /\ _ /\ t = Machine.groupby_sum ar MainStore.Item_Code
                                  MainStore.Quantity
                                  (MainStore.clean (rows sh'))
                  /\ _ /\ (Machine.abs_diff ar
                             (Machine.series_sum ar
                                (map MainStore.Quantity
                                   (MainStore.clean (rows sh'))))
                             (Machine.series_sum ar (map snd t))
                           < 1 # 100)%Q)) in H.
      destruct H as [_ [_ [-> [_ Hp]]]].
      apply Qltb_lt in Hp. congruence.
    + intros e E. inversion E. do 5 right. exists xl, sh.
      rewrite main_run_aggregate. auto.
Qed.

End MainStoreRunOutcomes.


(** ** Script 4: outcomes *)

Module InventoryCalcOutcomes.
Import InventoryCalc InventoryCalcFacts.

Open Scope Q_scope.

Lemma net_ok_iff (df : list InventoryRow) :
  net_ok df = true
  <-> Forall (fun r => Net_Stock r
                       == Global_stock (merged r) + Pending_PO (merged r)) df.
Proof.
  unfold net_ok. rewrite forallb_forall, Forall_forall.
  split; intros H r Hr; apply Qeq_bool_iff; auto.
Qed.

Lemma order_qty_ok_iff (df : list InventoryRow) :
  forallb (fun r => Py.Qgeb (Order_Qty r) 0) df = true
  <-> Forall (fun r => 0 <= Order_Qty r) df.
Proof.
  rewrite forallb_forall, Forall_forall. unfold Py.Qgeb.
  split; intros H r Hr; apply Qle_bool_iff; auto.
Qed.

(** X10. [validate] lets a table through exactly when on every row the
    stored net stock equals global stock plus pending orders and the
    order quantity is not negative; a row with a wrong net stock raises
    the net stock assertion, and otherwise a negative order quantity
    raises the assertion on order quantities. *)
Theorem validate_guards (df : list InventoryRow) :
  let net_right r :=
    Net_Stock r == Global_stock (merged r) + Pending_PO (merged r) in
  (validate df = inr tt
   <-> Forall (fun r => net_right r /\ 0 <= Order_Qty r) df)
  /\ (~ Forall net_right df ->
      validate df = inl (Py.AssertionError Py.Net_Stock_calculation_error))
  /\ (Forall net_right df -> ~ Forall (fun r => 0 <= Order_Qty r) df ->
      validate df = inl (Py.AssertionError Py.Negative_order_quantities_found)).
Proof.
  intros net_right. unfold validate, Py.assert.
  pose proof (net_ok_iff df) as N. pose proof (order_qty_ok_iff df) as O.
  fold net_right in N.
  destruct (net_ok df); destruct (forallb _ df); simpl;
    (split; [|split]); try (intros; reflexivity);
    try (split; [intros _ | intros _; reflexivity]);
    try (split; [discriminate|]).
  - apply Forall_forall. intros r Hr.
    pose proof (proj1 N eq_refl) as A. pose proof (proj1 O eq_refl) as B.
    rewrite Forall_forall in A, B. auto.
  - intros H. exfalso. apply H. now apply N.
  - intros _ H. exfalso. apply H. now apply O.
  - intros H. assert (B : Forall (fun r => 0 <= Order_Qty r) df).
    { apply Forall_forall. intros r Hr. rewrite Forall_forall in H.
      now apply H. }
    apply O in B. discriminate.
  - intros H. exfalso. apply H. now apply N.
  - intros H. assert (A : Forall net_right df).
    { apply Forall_forall. intros r Hr. rewrite Forall_forall in H.
      now apply H. }
    apply N in A. discriminate.
  - intros H _. apply N in H. discriminate.
  - intros H. assert (A : Forall net_right df).
    { apply Forall_forall. intros r Hr. rewrite Forall_forall in H.
      now apply H. }
    apply N in A. discriminate.
  - intros H _. apply N in H. discriminate.
Qed.

(** The table of [calculate_metrics] passes [validate]. *)
Lemma validate_with_metrics (data : list MergedRow) :
  validate (map with_metrics data) = inr tt.
Proof.
  unfold validate, Py.assert.
  replace (net_ok (map with_metrics data)) with true.
  - replace (forallb _ _) with true; trivial.
    symmetry. apply order_qty_ok_iff, Forall_forall. intros r Hr.
    apply in_map_iff in Hr. destruct Hr as [m [<- _]].
    apply with_metrics_order_qty_nonneg.
  - symmetry. apply net_ok_iff, Forall_forall. intros r Hr.
    apply in_map_iff in Hr. destruct Hr as [m [<- _]]. reflexivity.
Qed.


Lemma map_nonempty {A B} (f : A -> B) (l : list A) : l <> [] -> map f l <> [].
Proof. destruct l; [intros H; now destruct H | discriminate]. Qed.



(** *** The left joins with the lookups *)

(** The number of rows of a lookup whose key matches [k]. *)
Definition matches (k : option string) (t : lookup) : nat :=
  List.length (filter (fun r => Py.key_eqb k (fst r)) t).

(** The value that a lookup with unique keys gives to [k]: the value of
    the row with that key, 0 when that value is missing or when no row
    has the key. *)
Definition value_at (k : option string) (t : lookup) : Q :=
  match find (fun r => Py.key_eqb k (fst r)) t with
  | Some r => Py.fillna0 (snd r)
  | None => 0
  end.

Lemma key_eqb_eq (a b : option string) : Py.key_eqb a b = true <-> a = b.
Proof.
  destruct a as [x|], b as [y|]; simpl; try (split; congruence).
  rewrite String.eqb_eq. split; congruence.
Qed.

Lemma filter_key_find (k : option string) (t : lookup) :
  NoDup (map fst t) ->
  filter (fun r => Py.key_eqb k (fst r)) t
  = match find (fun r => Py.key_eqb k (fst r)) t with
    | Some r => [r]
    | None => []
    end.
Proof.
  induction t as [|a t IH]; simpl; intros H; trivial.
  inversion H as [|? ? Hin Hnd]; subst.
  destruct (Py.key_eqb k (fst a)) eqn:E.
  - f_equal. apply filter_none. intros r Hr.
    destruct (Py.key_eqb k (fst r)) eqn:E'; trivial.
    apply key_eqb_eq in E, E'. exfalso. apply Hin.
    rewrite <- E, E'. now apply in_map.
  - now apply IH.
Qed.

Lemma merge_left_find {A} (key : A -> option string) (left : list A)
    (t : lookup) :
  NoDup (map fst t) ->
  map (fun r => (fst r, Py.fillna0 (snd r))) (Py.merge_left key left t)
  = map (fun l => (l, value_at (key l) t)) left.
Proof.
  intros H. unfold Py.merge_left, value_at.
  induction left as [|l left IH]; trivial.
  cbn [flat_map]. rewrite map_app, IH, map_cons.
  rewrite (filter_key_find (key l) t H).
  destruct (find _ t); reflexivity.
Qed.

Lemma map_fst_pairs {A} (l : A) (rs : lookup) :
  map fst (map (fun r : option string * option Q => (l, snd r)) rs)
  = repeat l (List.length rs).
Proof. induction rs as [|r rs IH]; simpl; trivial. now rewrite IH. Qed.

Lemma merge_left_rows {A} (key : A -> option string) (left : list A)
    (t : lookup) :
  map fst (Py.merge_left key left t)
  = flat_map (fun l => repeat l (Nat.max 1 (matches (key l) t))) left.
Proof.
  unfold Py.merge_left, matches.
  induction left as [|l left IH]; trivial.
  cbn [flat_map]. rewrite map_app, IH. f_equal.
  destruct (filter _ t) as [|r ms]; trivial.
  rewrite map_fst_pairs. reflexivity.
Qed.

(** X12. With a lookup whose keys are unique, each of the two stock
    merges keeps the rows of the working table as they are and in order,
    and gives each the value of the lookup row with its item code, 0 when
    the lookup has no such row or no value there. *)
Theorem merge_with_unique_keys (t : lookup) :
  NoDup (map fst t) ->
  (forall data,
     merge_global_stock data (Some t)
     = inr (map (fun m => (m, value_at (Item_Code m) t)) data))
  /\ (forall data,
        merge_main_store_stock data (Some t)
        = inr (map (fun r => (r, value_at (Item_Code (fst r)) t)) data)).
Proof.
  intros H. split; intros data.
  - unfold merge_global_stock, Py.ret. f_equal. now apply merge_left_find.
  - unfold merge_main_store_stock, Py.ret. f_equal.
    now apply (merge_left_find (fun r => Item_Code (fst r))).
Qed.

Lemma merge_with_unique_keys_witness :
  merge_global_stock catalog (Some global_lookup)
  = inr (map (fun m => (m, value_at (Item_Code m) global_lookup)) catalog).
Proof.
  apply (merge_with_unique_keys global_lookup).
  repeat constructor; simpl; intuition discriminate.
Defined.

(** X13. Whatever the lookup, a stock merge drops no row of the working
    table: a row appears once when no lookup row has its item code, and
    as many times as there are lookup rows with its item code otherwise,
    so a key that occurs twice in the lookup doubles the row. *)
Theorem merge_row_multiplicity (t : lookup) :
  (forall data, exists d,
     merge_global_stock data (Some t) = inr d
     /\ map fst d
        = flat_map (fun m => repeat m (Nat.max 1 (matches (Item_Code m) t))) data
     /\ (List.length data <= List.length d)%nat)
  /\ (forall data, exists d,
        merge_main_store_stock data (Some t) = inr d
        /\ map fst d
           = flat_map
               (fun r => repeat r (Nat.max 1 (matches (Item_Code (fst r)) t)))
               data
        /\ (List.length data <= List.length d)%nat).
Proof.
  assert (L : forall A (f : A -> nat) (l : list A),
            (List.length l <= List.length (flat_map (fun a => repeat a (Nat.max 1 (f a))) l))%nat).
  { intros A f l. induction l as [|a l IH]; cbn [flat_map]; trivial.
    rewrite length_app, repeat_length.
    change (List.length (a :: l)) with (S (List.length l)).
    pose proof (Nat.le_max_l 1 (f a)). lia. }
  split; intros data.
  - unfold merge_global_stock, Py.ret.
    set (d := map _ (Py.merge_left Item_Code data t)).
    assert (E : map fst d
                = flat_map (fun m => repeat m (Nat.max 1 (matches (Item_Code m) t)))
                    data).
    { unfold d. rewrite map_map. simpl. apply merge_left_rows. }
    exists d. split; [reflexivity | split; trivial].
    rewrite <- (length_map fst d), E. apply L.
  - unfold merge_main_store_stock, Py.ret.
    set (d := map _ (Py.merge_left _ data t)).
    assert (E : map fst d
                = flat_map
                    (fun r => repeat r (Nat.max 1 (matches (Item_Code (fst r)) t)))
                    data).
    { unfold d. rewrite map_map. simpl.
      apply (merge_left_rows (fun r : MasterItem * Q => Item_Code (fst r))). }
    exists d. split; [reflexivity | split; trivial].
    rewrite <- (length_map fst d), E. apply L.
Qed.

(** The row of the working table for a catalog item, with the values of
    two lookups and of the purchase order feed. *)
Definition merged_row (g s : lookup) (p : list PendingPORecord) (now : Z)
    (m : MasterItem) : MergedRow :=
  {| master := m;
     Global_stock := value_at (Item_Code m) g;
     Main_Store_Stock := value_at (Item_Code m) s;
     Pending_PO := pending_for p now (Item_Code m) |}.

(** X14. With two lookups whose keys are unique and a catalog that has an
    active item, [run] returns one row for every active item of the
    catalog, in the order of the catalog, each with the global stock and
    the main store stock that the lookups hold for its item code and with
    the pending quantity of its counted purchase order lines. *)
Theorem run_rows (m : list MasterItem) (g s : lookup)
    (p : list PendingPORecord) (now : Z) :
  NoDup (map fst g) -> NoDup (map fst s) ->
  (exists r, In r m /\ active r = true) ->
  exists out,
    run (Some m) (Some g) (Some s) (Some p) now = inr out
    /\ map merged out
       = map (merged_row g s p now) (filter (fun r => active r) m).
Proof.
  intros Hg Hs [r0 [Hr0 Ha0]].
  assert (Hne : filter (fun r => eq_True (Current_SKU r)) m <> []).
  { intros E.
    assert (H : In r0 (filter (fun r => eq_True (Current_SKU r)) m))
      by (apply filter_In; auto).
    rewrite E in H. destruct H. }
  unfold run, load_master. cbn [Py.bind Py.ret].
  unfold merge_global_stock, merge_main_store_stock, Py.ret. cbn [Py.bind].
  rewrite (merge_left_find Item_Code _ g Hg).
  rewrite (merge_left_find (fun r : MasterItem * Q => Item_Code (fst r)) _ s Hs).
  rewrite process_pending_po_returns. cbn [Py.bind].
  rewrite calculate_metrics_returns by (repeat apply map_nonempty; exact Hne).
  cbn [Py.bind]. rewrite validate_with_metrics. cbn [Py.bind].
  eexists. split; [reflexivity|].
  rewrite !map_map. apply map_ext. intros r. reflexivity.
Qed.

Lemma run_rows_witness :
  exists out,
    run (Some catalog) (Some global_lookup) (Some main_lookup) (Some po_feed)
      run_time = inr out
    /\ map merged out
       = map (merged_row global_lookup main_lookup po_feed run_time)
           (filter (fun r => active r) catalog).
Proof.
  apply run_rows.
  - repeat constructor; simpl; intuition discriminate.
  - repeat constructor; simpl; intuition discriminate.
  - eexists. split; [left; reflexivity | reflexivity].
Defined.

(** *** The order quantity *)

(** The two ways in which [with_metrics] fills the order quantity. *)
Lemma order_qty_cases (r : MergedRow) :
  let m := master r in
  let shortage := Max_Stock_Level m - (Global_stock r + Pending_PO r) in
  (Reorder_Needed (with_metrics r) = true /\ 0 < Pack_size m /\ 0 < shortage
   /\ Order_Qty (with_metrics r)
      = inject_Z (Qceiling (shortage / Pack_size m)) * Pack_size m)
  \/ ((Reorder_Needed (with_metrics r) = false \/ Pack_size m <= 0
       \/ shortage <= 0)
      /\ Order_Qty (with_metrics r) = 0).
Proof.
  intros m shortage. unfold with_metrics. cbn [Reorder_Needed Order_Qty].
  fold m. fold shortage.
  destruct (active m && Py.Qltb _ (Min_Stock_Level m)); simpl; [|auto].
  destruct (Qle_bool (Pack_size m) 0) eqn:Ep; simpl.
  { right. apply Qle_bool_iff in Ep. auto. }
  destruct (Qle_bool shortage 0) eqn:Es; simpl.
  { right. apply Qle_bool_iff in Es. auto. }
  left.
  assert (Hp : 0 < Pack_size m).
  { apply Qnot_le_lt. intros L. apply Qle_bool_iff in L. congruence. }
  assert (Hs : 0 < shortage).
  { apply Qnot_le_lt. intros L. apply Qle_bool_iff in L. congruence. }
  repeat split; trivial. apply max_0_pos. now apply packs_pos.
Qed.

(** Whole packs that cover [shortage] and no pack more. *)
Lemma packs_cover (shortage pack : Q) :
  0 < pack ->
  shortage <= inject_Z (Qceiling (shortage / pack)) * pack
  /\ inject_Z (Qceiling (shortage / pack)) * pack < shortage + pack.
Proof.
  intros Hp.
  assert (Hne : ~ pack == 0) by (intros E; rewrite E in Hp; now apply Qlt_irrefl in Hp).
  assert (E : shortage == shortage / pack * pack).
  { unfold Qdiv. rewrite <- Qmult_assoc, (Qmult_comm (/ pack)), Qmult_inv_r; trivial.
    ring. }
  pose proof (Qle_ceiling (shortage / pack)) as Hc.
  pose proof (Qceiling_lt (shortage / pack)) as Hl.
  set (c := Qceiling (shortage / pack)) in *.
  unfold Z.sub in Hl. rewrite inject_Z_plus in Hl.
  change (inject_Z (-1)) with (-1 # 1) in Hl.
  split.
  - rewrite E at 1. apply Qmult_le_compat_r; trivial. now apply Qlt_le_weak.
  - assert (H : (inject_Z c + (-1 # 1)) * pack < shortage / pack * pack)
      by now apply Qmult_lt_compat_r.
    rewrite <- E in H.
    setoid_replace (inject_Z c * pack)
      with ((inject_Z c + (-1 # 1)) * pack + pack) by ring.
    lra.
Qed.

Lemma ceil_nonneg (shortage pack : Q) :
  0 < pack -> 0 < shortage -> (0 <= Qceiling (shortage / pack))%Z.
Proof.
  intros Hp Hs.
  assert (Hd : 0 < shortage / pack).
  { apply Qlt_shift_div_l; trivial. now rewrite Qmult_0_l. }
  change 0%Z with (Qceiling 0). apply Qceiling_resp_le. now apply Qlt_le_weak.
Qed.

(** X15. On a table with rows [calculate_metrics] returns the rows of the
    table with their metrics, and on every row the order quantity is not
    negative and is a whole number of packs, it is 0 when no reorder is
    needed, and when a reorder is needed with a positive pack size and a
    net stock below the maximum it brings the net stock to the maximum
    stock level or above, by less than one pack. *)
Theorem order_qty_bounds (data : list MergedRow) :
  data <> [] ->
  exists df,
    calculate_metrics data = inr df
    /\ map merged df = data
    /\ Forall
         (fun r =>
            let m := master (merged r) in
            0 <= Order_Qty r
            /\ (exists n, (0 <= n)%Z /\ Order_Qty r == inject_Z n * Pack_size m)
            /\ (Reorder_Needed r = false -> Order_Qty r == 0)
            /\ (Reorder_Needed r = true -> 0 < Pack_size m ->
                Net_Stock r < Max_Stock_Level m ->
                Max_Stock_Level m <= Net_Stock r + Order_Qty r
                /\ Net_Stock r + Order_Qty r < Max_Stock_Level m + Pack_size m))
         df.
Proof.
  intros Hne. exists (map with_metrics data).
  split; [now apply calculate_metrics_returns|].
  split; [apply map_merged_with_metrics|].
  apply Forall_forall. intros x Hx. apply in_map_iff in Hx.
  destruct Hx as [r [<- _]]. cbv zeta.
  change (merged (with_metrics r)) with r.
  change (Net_Stock (with_metrics r)) with (Global_stock r + Pending_PO r).
  split; [apply with_metrics_order_qty_nonneg|].
  destruct (order_qty_cases r) as [[Hr [Hp [Hs E]]]|[Hc E]]; rewrite E.
  - destruct (packs_cover (Max_Stock_Level (master r)
                           - (Global_stock r + Pending_PO r)) _ Hp) as [Hlo Hhi].
    pose proof (ceil_nonneg _ _ Hp Hs) as Hn.
    split; [|split].
    + eexists. split; [exact Hn | reflexivity].
    + rewrite Hr. discriminate.
    + intros _ _ _. split; lra.
  - split; [|split].
    + exists 0%Z. split; [lia | ring].
    + reflexivity.
    + intros Hr Hp Hs. exfalso.
      destruct Hc as [Hc|[Hc|Hc]].
      * congruence.
      * revert Hc. now apply Qlt_not_le.
      * apply (Qlt_not_le _ _ Hs). lra.
Qed.

Lemma order_qty_bounds_witness :
  exists df,
    calculate_metrics [scenario_4; scenario_5] = inr df
    /\ map merged df = [scenario_4; scenario_5]
    /\ Forall (fun r => 0 <= Order_Qty r) df.
Proof.
  destruct (order_qty_bounds [scenario_4; scenario_5]) as [df [E [M F]]].
  - discriminate.
  - exists df. split; [exact E | split; [exact M|]].
    revert F. apply Forall_impl. intros r H. apply H.
Defined.

(** X16. On a table with rows [calculate_metrics] returns the rows of the
    table with their metrics, and on every row an order is placed, that
    is the order quantity is positive, exactly when a reorder is needed,
    the pack size is positive and the net stock is below the maximum
    stock level. *)
Theorem order_placed_iff (data : list MergedRow) :
  data <> [] ->
  exists df,
    calculate_metrics data = inr df
    /\ map merged df = data
    /\ Forall
         (fun r =>
            let m := master (merged r) in
            0 < Order_Qty r
            <-> Reorder_Needed r = true /\ 0 < Pack_size m
                /\ Net_Stock r < Max_Stock_Level m)
         df.
Proof.
  intros Hne. exists (map with_metrics data).
  split; [now apply calculate_metrics_returns|].
  split; [apply map_merged_with_metrics|].
  apply Forall_forall. intros x Hx. apply in_map_iff in Hx.
  destruct Hx as [r [<- _]]. cbv zeta.
  change (merged (with_metrics r)) with r.
  change (Net_Stock (with_metrics r)) with (Global_stock r + Pending_PO r).
  destruct (order_qty_cases r) as [[Hr [Hp [Hs E]]]|[Hc E]]; rewrite E.
  - split.
    + intros _. repeat split; trivial. lra.
    + intros _. now apply packs_pos.
  - split.
    + intros H. now apply Qlt_irrefl in H.
    + intros [Hr [Hp Hs]]. exfalso. destruct Hc as [Hc|[Hc|Hc]].
      * congruence.
      * revert Hc. now apply Qlt_not_le.
      * apply (Qlt_not_le _ _ Hs). lra.
Qed.

Lemma order_placed_iff_witness :
  exists df,
    calculate_metrics [scenario_4; scenario_5] = inr df
    /\ map merged df = [scenario_4; scenario_5]
    /\ Forall
         (fun r =>
            0 < Order_Qty r
            <-> Reorder_Needed r = true /\ 0 < Pack_size (master (merged r))
                /\ Net_Stock r < Max_Stock_Level (master (merged r)))
         df.
Proof.
  apply (order_placed_iff [scenario_4; scenario_5]). discriminate.
Defined.

End InventoryCalcOutcomes.

(** ** Script 4: stock days, export order, hand-over of the lookups *)

Module InventoryCalcMore.
Import InventoryCalc InventoryCalcFacts InventoryExport.

Open Scope Q_scope.

Lemma round0_nonneg (x : Q) : 0 <= x -> (0 <= Py.round0 x)%Z.
Proof.
  intros H. unfold Py.round0.
  assert (F : (0 <= Qfloor x)%Z).
  { change 0%Z with (Qfloor 0). now apply Qfloor_resp_le. }
  destruct (Py.Qltb _ _); [trivial|].
  destruct (Py.Qltb _ _); [lia|].
  destruct (Z.even _); lia.
Qed.

Lemma stock_days_of_whole (stock adc : Q) :
  exists n, stock_days_of stock adc = inject_Z n
            /\ (0 <= stock -> (0 <= n)%Z).
Proof.
  unfold stock_days_of. destruct (Py.Qltb 0 adc) eqn:E.
  - eexists. split; [reflexivity|]. intros H. apply round0_nonneg.
    apply Qltb_lt in E. apply Qle_shift_div_l; trivial.
    now rewrite Qmult_0_l.
  - exists 0%Z. split; [reflexivity | lia].
Qed.

(** X17. On a table with rows [calculate_metrics] returns the rows of the
    table with their metrics, and on every row the two stock-days columns
    hold whole numbers, and neither is negative when the stock that it
    measures is not negative. *)
Theorem stock_days_whole (data : list MergedRow) :
  data <> [] ->
  exists df,
    calculate_metrics data = inr df
    /\ map merged df = data
    /\ Forall
         (fun r =>
            (exists n, Global_Stock_Days r = inject_Z n
                       /\ (0 <= Global_stock (merged r) -> (0 <= n)%Z))
            /\ (exists n, Main_Store_Stock_Days r = inject_Z n
                          /\ (0 <= Main_Store_Stock (merged r) -> (0 <= n)%Z)))
         df.
Proof.
  intros Hne. exists (map with_metrics data).
  split; [now apply calculate_metrics_returns|].
  split; [apply map_merged_with_metrics|].
  apply Forall_forall. intros x Hx. apply in_map_iff in Hx.
  destruct Hx as [r [<- _]]. simpl. split; apply stock_days_of_whole.
Qed.

Lemma stock_days_whole_witness :
  exists df,
    calculate_metrics [scenario_3; scenario_4] = inr df
    /\ map merged df = [scenario_3; scenario_4]
    /\ Forall
         (fun r =>
            (exists n, Global_Stock_Days r = inject_Z n
                       /\ (0 <= Global_stock (merged r) -> (0 <= n)%Z))
            /\ (exists n, Main_Store_Stock_Days r = inject_Z n
                          /\ (0 <= Main_Store_Stock (merged r) -> (0 <= n)%Z)))
         df.
Proof.
  apply (stock_days_whole [scenario_3; scenario_4]). discriminate.
Defined.

(** *** The order of the exported sheet *)

(** [a] may stand above [b] in the sheet: if [b] needs a reorder so does
    [a], and with equal flags the order quantity of [a] is not below that
    of [b]. *)
Definition may_precede (a b : InventoryRow) : Prop :=
  (Reorder_Needed b = true -> Reorder_Needed a = true)
  /\ (Reorder_Needed a = Reorder_Needed b -> Order_Qty b <= Order_Qty a).

Lemma sorts_before_false (a b : InventoryRow) :
  sorts_before b a = false <-> may_precede a b.
Proof.
  unfold sorts_before, may_precede.
  destruct (Reorder_Needed a), (Reorder_Needed b); simpl; rewrite ?Qltb_ge.
  - split; [auto | intros [_ H]; auto].
  - split; [intros _; split; intros H; [reflexivity | discriminate H]
           | reflexivity].
  - split; [discriminate | intros [H _]; discriminate (H eq_refl)].
  - split; [auto | intros [_ H]; auto].
Qed.

Lemma place_perm (a : InventoryRow) (l : list InventoryRow) :
  Permutation (a :: l) (place a l).
Proof.
  induction l as [|b l IH]; simpl; auto.
  destruct (sorts_before b a); auto.
  rewrite perm_swap. now constructor.
Qed.

Lemma may_precede_trans (a b c : InventoryRow) :
  may_precede a b -> may_precede b c -> may_precede a c.
Proof.
  unfold may_precede.
  destruct (Reorder_Needed a), (Reorder_Needed b), (Reorder_Needed c);
    intros [H1 H2] [H3 H4]; split; intros; try congruence;
    try (specialize (H1 eq_refl)); try (specialize (H3 eq_refl));
    try discriminate;
    apply Qle_trans with (Order_Qty b); auto.
Qed.

Lemma place_sorted (a : InventoryRow) (l : list InventoryRow) :
  StronglySorted may_precede l -> StronglySorted may_precede (place a l).
Proof.
  induction l as [|b l IH]; simpl; intros Hl.
  - repeat constructor.
  - inversion Hl as [|? ? Hl' Hb]; subst.
    destruct (sorts_before b a) eqn:E.
    + constructor; [now apply IH|].
      apply (Permutation_Forall (place_perm a l)). constructor; trivial.
      apply sorts_before_false.
      unfold sorts_before in *.
      destruct (Reorder_Needed a), (Reorder_Needed b); simpl in *;
        try discriminate; trivial.
      * apply Qltb_lt in E. apply Qltb_ge. now apply Qlt_le_weak.
      * apply Qltb_lt in E. apply Qltb_ge. now apply Qlt_le_weak.
    + apply sorts_before_false in E. constructor; trivial.
      constructor; trivial.
      rewrite Forall_forall in *. intros c Hc.
      now apply (may_precede_trans a b c E), Hb.
Qed.

(** X18. The sheet that [export] writes holds the rows of the table, each
    as often as the table has it, with the rows that need a reorder above
    all others and, among rows with the same flag, the larger order
    quantities above the smaller. *)
Theorem export_order (df : list InventoryRow) :
  Permutation df (export df)
  /\ StronglySorted may_precede (export df)
  /\ (forall l1 a l2 b l3,
        export df = l1 ++ a :: l2 ++ b :: l3 ->
        (Reorder_Needed b = true -> Reorder_Needed a = true)
        /\ (Reorder_Needed a = Reorder_Needed b -> Order_Qty b <= Order_Qty a)).
Proof.
  assert (S : StronglySorted may_precede (export df)).
  { induction df as [|a df IH]; simpl.
    - constructor.
    - apply place_sorted, IH. }
  assert (P : Permutation df (export df)).
  { clear S. induction df as [|a df IH]; simpl; auto.
    rewrite <- place_perm. now constructor. }
  split; [trivial | split; [trivial|]].
  intros l1 a l2 b l3 E. rewrite E in S. clear E P.
  induction l1 as [|x l1 IH]; simpl in S.
  - inversion S as [|? ? _ Ha]; subst. rewrite Forall_forall in Ha.
    apply Ha. apply in_or_app. right. now left.
  - inversion S; subst. auto.
Qed.

End InventoryCalcMore.

(** ** The hand-over of the lookups to the inventory calculation *)

Module Handover.
Import InventoryCalc InventoryCalcFacts.

Open Scope Q_scope.

(** The sheet of a lookup table as the inventory calculation reads it
    back from the file that an aggregator wrote: the item code and the
    quantity of every row, in order. *)
Definition sheet_of (t : list (string * option Q)) : lookup :=
  map (fun p => (Some (fst p), snd p)) t.

(** The total of the rows of [df] with item code [code]; 0 for a missing
    code. *)
Definition total_for {B} (K : B -> option string) (V : B -> option Q)
    (df : list B) (code : option string) : Q :=
  match code with
  | Some c => Py.sum (map V (Py.group K c df))
  | None => 0
  end.

Lemma merge_groupby {A B} (key : A -> option string) (left : list A)
    (K : B -> option string) (V : B -> option Q) (df : list B) :
  map (fun r => (fst r, Py.fillna0 (snd r)))
    (Py.merge_left key left (sheet_of (Py.groupby_sum K V df)))
  = map (fun l => (l, total_for K V df (key l))) left.
Proof.
  unfold sheet_of, Py.groupby_sum. rewrite map_map. cbn [fst snd].
  rewrite (merge_left_unique key left
             (fun k => Some (Py.sum (map V (Py.group K k df))))
             (Py.group_keys K df) (group_keys_NoDup K df)).
  rewrite map_map. apply map_ext. intros l. cbn [fst snd]. f_equal.
  unfold total_for. destruct (key l) as [c|]; trivial.
  destruct (in_dec string_dec c (Py.group_keys K df)) as [i|n]; trivial.
  now rewrite (group_absent K c df n).
Qed.

(** X19. When the global stock aggregator returns a table and the
    inventory calculation merges the sheet of that table, every row of
    the working table is kept once, in order, and its global stock is the
    total quantity of the report rows that survived the cleaning under
    its item code, 0 when there is none. *)
Theorem global_lookup_handover (report : list GlobalStock.RawStockRecord)
    (t : GlobalStock.GlobalStockLookup) (data : list MasterItem) :
  GlobalStock.create_global_stock_lookup (Some report) = inr t ->
  merge_global_stock data (Some (sheet_of t))
  = inr (map (fun m =>
                (m, total_for GlobalStock.Item_Code GlobalStock.Quantity
                      (GlobalStock.clean report) (Item_Code m)))
           data).
Proof.
  intros H. apply GlobalStockFacts.create_returns in H.
  destruct H as [df [E [-> _]]]. inversion E; subst df.
  rewrite GlobalStockFacts.global_aggregate_groupby.
  unfold merge_global_stock, Py.ret. f_equal. apply merge_groupby.
Qed.

Lemma global_lookup_handover_witness :
  merge_global_stock catalog
    (Some (sheet_of [("A1"%string, Some 15)]))
  = inr (map (fun m =>
                (m, total_for GlobalStock.Item_Code GlobalStock.Quantity
                      (GlobalStock.clean GlobalStockFacts.scenario_1)
                      (Item_Code m)))
           catalog).
Proof.
  apply (global_lookup_handover GlobalStockFacts.scenario_1). reflexivity.
Defined.

(** X20. When the main store aggregator returns a table and the inventory
    calculation merges the sheet of that table, every row of the working
    table is kept once, in order, and its main store stock is the total
    quantity of the batches that the quality checks kept under its item
    code, 0 when there is none. *)
Theorem main_lookup_handover (xl : MainStore.workbook)
    (raw : list MainStore.RawBatchRecord) (t : MainStore.MainStoreStockLookup)
    (data : list (MasterItem * Q)) :
  MainStore.raw_sheet xl = Some raw ->
  MainStore.create_main_store_stock_lookup (Some xl) = inr t ->
  merge_main_store_stock data (Some (sheet_of t))
  = inr (map (fun r =>
                (r, total_for MainStore.Item_Code MainStore.Quantity
                      (MainStore.clean raw) (Item_Code (fst r))))
           data).
Proof.
  intros Er H. rewrite MainStoreOutcomes.main_create_cases, Er in H.
  destruct (Nat.eqb _ 0); [discriminate|].
  destruct (forallb _ _); [|discriminate].
  inversion H; subst t.
  rewrite MainStoreFacts.main_aggregate_groupby.
  unfold merge_main_store_stock, Py.ret. f_equal.
  apply (merge_groupby (fun r : MasterItem * Q => Item_Code (fst r))).
Qed.

Lemma main_lookup_handover_witness :
  merge_main_store_stock [(item 4 100 500 30, 60)]
    (Some (sheet_of [("B7"%string, Some 7)]))
  = inr (map (fun r =>
                (r, total_for MainStore.Item_Code MainStore.Quantity
                      (MainStore.clean
                         [ {| MainStore.ItemCode := Some "B7"%string;
                              MainStore.Qty := QtyNumber 4;
                              MainStore.StoreName := Some "Ward 3 Sub Store"%string |};
                           {| MainStore.ItemCode := Some "B7"%string;
                              MainStore.Qty := QtyNumber 7;
                              MainStore.StoreName := Some MainStore.MAIN_STORE |} ])
                      (Item_Code (fst r))))
           [(item 4 100 500 30, 60)]).
Proof.
  apply (main_lookup_handover MainStoreFacts.scenario_2).
  - reflexivity.
  - reflexivity.
Defined.

End Handover.
